(** * ClinicalTrials.gov tool (clinicaltrails.py): a shallow embedding

    The Python module exposes two tools, [search_clinical_trials_by_NCT] and
    [search_clinical_trials_by_keyword].  Both build a query URL, fetch it with
    [requests], decode the body as CSV, load the rows into a pandas table and
    return text.  The embedding below follows the module top to bottom:

    - Python values: [str] is a [string] holding the UTF-8 encoding of the
      text (every literal of the module is ASCII), [int] is [Z], [None] for
      an optional argument is [option];
    - exceptions are values of [exn] (class and [str(e)] text) and every
      function that may raise returns a [result];
    - the module-level list [_valid_csv_column_names] and the requests sent to
      the network live in a [Store] threaded through the operations;
    - what the module takes from outside (the network, the UTF-8 codec, the
      pandas text renderers) is a [World], quantified in every theorem.

    Logging ([logger.info]) and the wall-clock reads around the request have
    no effect on any returned value and cannot raise; they are left out, and
    so is [json_handler], which neither tool calls.  The tools are declared
    [async] but await nothing: a call runs its body to the end. *)

From stdpp Require Import base option list strings pretty gmap.
From Stdlib Require Import ZArith NArith Ascii String.

Open Scope Z_scope.

(** ** Python runtime: exceptions and results *)

Module Py.

(** The exception classes that the module and the libraries it calls raise.
    [ConnectTimeout] derives from both [ConnectionError] and [Timeout] in
    [requests]; [ReadTimeout] derives from [Timeout]. *)
Inductive exc_class :=
| Exception
| HTTPError
| ConnectionError
| ConnectTimeout
| Timeout
| ReadTimeout
| RequestException
| UnicodeDecodeError
| CsvError
| ValueError
| KeyError
| IndexError
| AttributeError.

Record exn := Exn { exc_type : exc_class; exc_str : string }.

(** [issubclass c d] for the classes above. *)
Definition issubclass (c d : exc_class) : bool :=
  match d, c with
  | Exception, _ => true
  | HTTPError, HTTPError => true
  | ConnectionError, (ConnectionError | ConnectTimeout) => true
  | ConnectTimeout, ConnectTimeout => true
  | Timeout, (Timeout | ConnectTimeout | ReadTimeout) => true
  | ReadTimeout, ReadTimeout => true
  | RequestException,
    (RequestException | HTTPError | ConnectionError | ConnectTimeout
     | Timeout | ReadTimeout) => true
  | UnicodeDecodeError, UnicodeDecodeError => true
  | CsvError, CsvError => true
  | ValueError, (ValueError | UnicodeDecodeError) => true
  | KeyError, KeyError => true
  | IndexError, IndexError => true
  | AttributeError, AttributeError => true
  | _, _ => false
  end.

Definition isinstance (e : exn) (d : exc_class) : bool :=
  issubclass (exc_type e) d.

Inductive result (A : Type) :=
| Ok (a : A)
| Raise (e : exn).
Arguments Ok {A} a.
Arguments Raise {A} e.

Global Instance result_ret : MRet result := fun A a => Ok a.
Global Instance result_bind : MBind result := fun A B k r =>
  match r with
  | Ok a => k a
  | Raise e => Raise e
  end.

(** [str(n)] and the f-string rendering of an int.  CPython 3.11 and later
    refuse to convert an int of more than 4300 decimal digits (the default of
    [sys.set_int_max_str_digits]) and raise [ValueError]; the sign is not
    counted. *)
Definition int_max_str_digits : Z := 4300.

Definition int_str (n : Z) : result string :=
  if Z.abs n <? 10 ^ int_max_str_digits then Ok (pretty n)
  else Raise (Exn ValueError
    "Exceeds the limit (4300 digits) for integer string conversion; use sys.set_int_max_str_digits() to increase the limit").

(** [str.join] *)
Fixpoint join (sep : string) (l : list string) : string :=
  match l with
  | [] => EmptyString
  | [x] => x
  | x :: rest => x +:+ sep +:+ join sep rest
  end.

Definition LF : ascii := "010"%char.
Definition CR : ascii := "013"%char.

(** [str(s)] inside quotes, as [repr] prints a key that holds no quote,
    backslash or control character. *)
Definition repr_plain (s : string) : string := "'" +:+ s +:+ "'".

(** White space of the ASCII range, as [str.strip] removes it. *)
Definition is_space (c : ascii) : bool :=
  let n := N_of_ascii c in
  ((9 <=? n) && (n <=? 13) || (28 <=? n) && (n <=? 32))%N.

Fixpoint lstrip (s : string) : string :=
  match s with
  | String c rest => if is_space c then lstrip rest else s
  | EmptyString => EmptyString
  end.

Definition strip (s : string) : string :=
  String.rev (lstrip (String.rev (lstrip s))).

(** [str.splitlines] on UTF-8 text: a line ends at LF, CR, CR LF, VT, FF,
    FS, GS, RS, NEL (C2 85), LS (E2 80 A8) or PS (E2 80 A9); the line ends
    are dropped and a final line break opens no further line.  [cur] is the
    current line, reversed. *)
Definition is_line_break (c : ascii) : bool :=
  let n := N_of_ascii c in
  ((n =? 10) || (n =? 11) || (n =? 12) || (n =? 13)
   || (n =? 28) || (n =? 29) || (n =? 30))%N.

Fixpoint splitlines_go (cur : string) (s : string) : list string :=
  match s with
  | EmptyString =>
      match cur with
      | EmptyString => []
      | _ => [String.rev cur]
      end
  | String "013" (String "010" rest) => String.rev cur :: splitlines_go EmptyString rest
  | String "194" (String "133" rest) => String.rev cur :: splitlines_go EmptyString rest
  | String "226" (String "128" (String "168" rest)) =>
      String.rev cur :: splitlines_go EmptyString rest
  | String "226" (String "128" (String "169" rest)) =>
      String.rev cur :: splitlines_go EmptyString rest
  | String c rest =>
      if is_line_break c then String.rev cur :: splitlines_go EmptyString rest
      else splitlines_go (String c cur) rest
  end%char.

Definition splitlines (s : string) : list string := splitlines_go EmptyString s.

(** Iterating an [io.StringIO]: lines end at LF and keep it. *)
Fixpoint StringIO_lines_go (cur : string) (s : string) : list string :=
  match s with
  | EmptyString =>
      match cur with
      | EmptyString => []
      | _ => [String.rev cur]
      end
  | String c rest =>
      if Ascii.eqb c LF then String.rev (String c cur) :: StringIO_lines_go EmptyString rest
      else StringIO_lines_go (String c cur) rest
  end.

Definition StringIO_lines (s : string) : list string :=
  StringIO_lines_go EmptyString s.

(** [sub in s] *)
Definition contains (sub s : string) : Prop :=
  exists pre post, s = pre +:+ sub +:+ post.

End Py.

Export Py.

(** ** The [csv] module: the reader's state machine

    [csv.reader] with the default dialect (excel): delimiter [,], quote
    character 34, doubled quotes inside quoted fields, no escape character,
    no skipping of initial spaces, not strict.  The machine is the one of
    CPython 3.11 and later ([parse_process_char] and [Reader_iternext]); the
    states for an escape character are left out because the dialect has
    none. *)

Module csv.

Inductive ParserState :=
| START_RECORD
| START_FIELD
| IN_FIELD
| IN_QUOTED_FIELD
| QUOTE_IN_QUOTED_FIELD
| EAT_CRNL.

(** [fields] and [field] are kept reversed; [field_len] counts the
    characters (code points) of the current field. *)
Record ReaderObj := {
  state : ParserState;
  fields : list string;
  field : string;
  field_len : N
}.

Definition delimiter : ascii := ","%char.
Definition quotechar : ascii := "034"%char.
Definition field_limit : N := 131072.

Definition parse_reset : ReaderObj :=
  {| state := START_RECORD; fields := []; field := EmptyString; field_len := 0 |}.

Definition set_state (s : ParserState) (r : ReaderObj) : ReaderObj :=
  {| state := s; fields := fields r; field := field r; field_len := field_len r |}.

Definition parse_save_field (r : ReaderObj) : ReaderObj :=
  {| state := state r;
     fields := String.rev (field r) :: fields r;
     field := EmptyString;
     field_len := 0 |}.

(** A byte of the form 10xxxxxx continues the code point opened before it:
    it is stored without being counted. *)
Definition is_continuation (c : ascii) : bool :=
  let n := N_of_ascii c in ((128 <=? n) && (n <? 192))%N.

Definition parse_add_char (r : ReaderObj) (c : ascii) : result ReaderObj :=
  if is_continuation c then
    Ok {| state := state r; fields := fields r;
          field := String c (field r); field_len := field_len r |}
  else if (field_limit <=? field_len r)%N then
    Raise (Exn CsvError "field larger than field limit (131072)")
  else
    Ok {| state := state r; fields := fields r;
          field := String c (field r); field_len := (field_len r + 1)%N |}.

Definition is_newline (c : ascii) : bool := Ascii.eqb c LF || Ascii.eqb c CR.

(** The character is [None] at the end of a line (EOL). *)
Definition start_field (r : ReaderObj) (c : option ascii) : result ReaderObj :=
  match c with
  | None => Ok (set_state START_RECORD (parse_save_field r))
  | Some ch =>
      if is_newline ch then Ok (set_state EAT_CRNL (parse_save_field r))
      else if Ascii.eqb ch quotechar then Ok (set_state IN_QUOTED_FIELD r)
      else if Ascii.eqb ch delimiter then Ok (parse_save_field r)
      else r' ← parse_add_char r ch; Ok (set_state IN_FIELD r')
  end.

Definition parse_process_char (r : ReaderObj) (c : option ascii) : result ReaderObj :=
  match state r with
  | START_RECORD =>
      match c with
      | None => Ok r
      | Some ch =>
          if is_newline ch then Ok (set_state EAT_CRNL r)
          else start_field (set_state START_FIELD r) c
      end
  | START_FIELD => start_field r c
  | IN_FIELD =>
      match c with
      | None => Ok (set_state START_RECORD (parse_save_field r))
      | Some ch =>
          if is_newline ch then Ok (set_state EAT_CRNL (parse_save_field r))
          else if Ascii.eqb ch delimiter then Ok (set_state START_FIELD (parse_save_field r))
          else parse_add_char r ch
      end
  | IN_QUOTED_FIELD =>
      match c with
      | None => Ok r
      | Some ch =>
          if Ascii.eqb ch quotechar then Ok (set_state QUOTE_IN_QUOTED_FIELD r)
          else parse_add_char r ch
      end
  | QUOTE_IN_QUOTED_FIELD =>
      match c with
      | None => Ok (set_state START_RECORD (parse_save_field r))
      | Some ch =>
          if Ascii.eqb ch quotechar then
            r' ← parse_add_char r ch; Ok (set_state IN_QUOTED_FIELD r')
          else if Ascii.eqb ch delimiter then Ok (set_state START_FIELD (parse_save_field r))
          else if is_newline ch then Ok (set_state EAT_CRNL (parse_save_field r))
          else r' ← parse_add_char r ch; Ok (set_state IN_FIELD r')
      end
  | EAT_CRNL =>
      match c with
      | None => Ok (set_state START_RECORD r)
      | Some ch =>
          if is_newline ch then Ok r
          else Raise (Exn CsvError
                 "new-line character seen in unquoted field - do you need to open the file with newline=''?")
      end
  end.

Fixpoint feed_line (r : ReaderObj) (line : string) : result ReaderObj :=
  match line with
  | EmptyString => Ok r
  | String c rest => r' ← parse_process_char r (Some c); feed_line r' rest
  end.

Definition row_of (r : ReaderObj) : list string := rev (fields r).

Definition is_START_RECORD (s : ParserState) : bool :=
  match s with START_RECORD => true | _ => false end.

Definition is_IN_QUOTED_FIELD (s : ParserState) : bool :=
  match s with IN_QUOTED_FIELD => true | _ => false end.

(** [list(csv.reader(lines))]: each record takes lines until the machine is
    back in [START_RECORD]; at the end of the input a pending field (or an
    open quote) still closes a record. *)
Fixpoint read_rows (r : ReaderObj) (lines : list string) : result (list (list string)) :=
  match lines with
  | [] =>
      if negb (field_len r =? 0)%N || is_IN_QUOTED_FIELD (state r)
      then Ok [row_of (parse_save_field r)]
      else Ok []
  | line :: rest =>
      r1 ← feed_line r line;
      r2 ← parse_process_char r1 None;
      if is_START_RECORD (state r2)
      then rows ← read_rows parse_reset rest; Ok (row_of r2 :: rows)
      else read_rows r2 rest
  end.

Definition reader (lines : list string) : result (list (list string)) :=
  read_rows parse_reset lines.

(** A value stored in a [DictReader] row: a field, [None] (the [restval] of
    a short row) or the list of surplus fields (under the [restkey] [None]). *)
Inductive dict_value :=
| VStr (s : string)
| VNone
| VList (l : list string).

Definition DictRow := gmap (option string) dict_value.

Definition DictReader_row (fieldnames row : list string) : DictRow :=
  let d : DictRow :=
    foldl (fun m kv => <[Some kv.1 := VStr kv.2]> m) ∅ (zip fieldnames row) in
  let lf := List.length fieldnames in
  let lr := List.length row in
  if (lf <? lr)%nat then <[None := VList (drop lf row)]> d
  else foldl (fun m k => <[Some k := VNone]> m) d (drop lr fieldnames).

Definition is_empty_row (row : list string) : bool :=
  match row with [] => true | _ => false end.

(** [list(csv.DictReader(f))]: the first record names the fields, empty
    records after it are skipped. *)
Definition DictReader (lines : list string) : result (list DictRow) :=
  rows ← reader lines;
  match rows with
  | [] => Ok []
  | fieldnames :: rest =>
      Ok (map (DictReader_row fieldnames) (filter (fun row => negb (is_empty_row row)) rest))
  end.

End csv.

(** ** The part of pandas the module uses

    A [DataFrame] built by [DataFrame.from_records] from CSV records: column
    labels, a range index, and rows of object cells.  A cell is [None] where
    a record was shorter than the widest one (pandas pads it with a missing
    value). *)

Module pandas.

Definition cell := option string.

Record DataFrame := {
  columns : list string;
  index : list Z;
  data : list (list cell)
}.

(** A one-dimensional labelled array: a column (labels are index values) or
    a row (labels are column names). *)
Record Series (L : Type) := {
  labels : list L;
  values : list cell
}.
Arguments labels {L} s.
Arguments values {L} s.

(** What [Series.get] hands back: a string cell, a missing cell, the caller's
    default, or a sub-series when the label occurs several times. *)
Inductive value :=
| Str (s : string)
| Missing
| SubSeries (vals : list cell).

Definition DataFrame_len (df : DataFrame) : nat := List.length (data df).

(** [df.empty]: some axis has length 0. *)
Definition DataFrame_empty (df : DataFrame) : bool :=
  (List.length (columns df) =? 0)%nat || (List.length (index df) =? 0)%nat.

Definition pad_row (k : nat) (row : list string) : list cell :=
  (Some <$> row) ++ replicate (k - List.length row) None.

Definition max_width (rows : list (list string)) : nat :=
  foldr (fun row k => Nat.max (List.length row) k) 0%nat rows.

(** [pd.DataFrame.from_records(rows, columns=header)] for a list of lists:
    the records are laid out in an object array as wide as the widest
    record; the header must have exactly that many names (otherwise
    [ValueError]); a table with no column has no row either. *)
Definition DataFrame_from_records (rows : list (list string)) (header : list string)
  : result DataFrame :=
  match rows with
  | [] => Ok {| columns := header; index := []; data := [] |}
  | _ =>
      let k := max_width rows in
      if negb (List.length header =? k)%nat then
        Raise (Exn ValueError
                 (pretty (List.length header) +:+ " columns passed, passed data had "
                  +:+ pretty k +:+ " columns"))
      else if (k =? 0)%nat then
        Ok {| columns := []; index := []; data := [] |}
      else
        Ok {| columns := header;
              index := seqZ 0 (Z.of_nat (List.length rows));
              data := pad_row k <$> rows |}
  end.

(** Python's [l[:n]]: a negative [n] counts from the end. *)
Definition slice_to {A} (n : Z) (l : list A) : list A :=
  if 0 <=? n then take (Z.to_nat n) l
  else take (List.length l - Z.to_nat (- n)) l.

(** [df.head(n)] is [df.iloc[:n]]. *)
Definition DataFrame_head (n : Z) (df : DataFrame) : DataFrame :=
  {| columns := columns df;
     index := slice_to n (index df);
     data := slice_to n (data df) |}.

(** Positions of a label among the column names. *)
Fixpoint positions_from (i : nat) (key : string) (names : list string) : list nat :=
  match names with
  | [] => []
  | x :: rest =>
      if String.eqb x key then i :: positions_from (S i) key rest
      else positions_from (S i) key rest
  end.

Definition positions (key : string) (names : list string) : list nat :=
  positions_from 0 key names.

Definition cell_at (i : nat) (row : list cell) : cell := default None (row !! i).

(** [df[key]] for a string key: [KeyError] when no column has the label, a
    [Series] when exactly one has, a narrower [DataFrame] when several have. *)
Inductive getitem_result :=
| Column (s : Series Z)
| Frame (df : DataFrame).

Definition DataFrame_getitem (df : DataFrame) (key : string) : result getitem_result :=
  match positions key (columns df) with
  | [] => Raise (Exn KeyError (repr_plain key))
  | [i] => Ok (Column {| labels := index df; values := cell_at i <$> data df |})
  | ps =>
      Ok (Frame {| columns := (fun _ => key) <$> ps;
                   index := index df;
                   data := (fun row => (fun i => cell_at i row) <$> ps) <$> data df |})
  end.

Definition cell_eqb (c : cell) (s : string) : bool :=
  match c with
  | Some x => String.eqb x s
  | None => false
  end.

(** [not (df[key] == s).any()]: a boolean for a column; for a frame [any]
    gives one boolean per column and [not] of that series raises a
    [ValueError].  The wording of its text differs between pandas versions;
    it is the argument [ambiguous]. *)
Definition not_any_eq (ambiguous : string) (g : getitem_result) (s : string)
  : result bool :=
  match g with
  | Column col => Ok (negb (existsb (fun c => cell_eqb c s) (values col)))
  | Frame _ => Raise (Exn ValueError ambiguous)
  end.

(** [l[mask]] for a boolean mask as long as [l]. *)
Fixpoint mask_select {A} (l : list A) (keep : list bool) : list A :=
  match l, keep with
  | x :: l', b :: keep' => if b then x :: mask_select l' keep' else mask_select l' keep'
  | _, _ => []
  end.

(** [df[df[key] == s]], given the column [df[key]]. *)
Definition select_eq (df : DataFrame) (col : Series Z) (s : string) : DataFrame :=
  let keep := (fun c => cell_eqb c s) <$> values col in
  {| columns := columns df;
     index := mask_select (index df) keep;
     data := mask_select (data df) keep |}.

(** [df.iloc[0]]: the first row as a series labelled by the columns. *)
Definition iloc0 (df : DataFrame) : result (Series string) :=
  match data df with
  | [] => Raise (Exn IndexError "single positional indexer is out-of-bounds")
  | row :: _ => Ok {| labels := columns df; values := row |}
  end.

(** [df.iterrows()], the rows only. *)
Definition iterrows (df : DataFrame) : list (Series string) :=
  (fun row => {| labels := columns df; values := row |}) <$> data df.

Definition value_of_cell (c : cell) : value :=
  match c with
  | Some s => Str s
  | None => Missing
  end.

(** [row.get(key, default)]: [row[key]], or the default when the label is
    absent. *)
Definition Series_get (row : Series string) (key : string) (default : value) : value :=
  match positions key (labels row) with
  | [] => default
  | [i] => value_of_cell (cell_at i (values row))
  | ps => SubSeries ((fun i => cell_at i (values row)) <$> ps)
  end.

End pandas.

Import pandas.

(** ** The world outside the module *)

Record Response := {
  status_code : Z;
  reason : string;
  resp_url : string;
  content : string
}.

(** What [requests.get(url, verify=False)] does: it returns a response or
    raises. *)
Inductive get_outcome :=
| Responds (r : Response)
| Fails (e : exn).

Record World := {
  requests_get : string -> get_outcome;
  (** [bytes.decode("utf-8")]: [None] when the bytes are valid UTF-8, the
      text of the [UnicodeDecodeError] otherwise *)
  utf8_error : string -> option string;
  (** [DataFrame.to_string()] *)
  DataFrame_to_string : DataFrame -> string;
  (** [str(x)] of a missing cell or of a pandas series *)
  object_to_string : value -> string;
  (** [str(e)] of the [ValueError] that the truth value of a series raises
      (The truth value of a Series is ambiguous. ...), as the installed
      pandas words it *)
  truth_value_error : string
}.

(** ** Module state and the monad of the operations *)

Record Store := {
  _valid_csv_column_names : list string;
  requests_sent : list string
}.

Definition M (A : Type) : Type := Store -> result A * Store.

Global Instance M_ret : MRet M := fun A a st => (Ok a, st).
Global Instance M_bind : MBind M := fun A B k m st =>
  match m st with
  | (Ok a, st') => k a st'
  | (Raise e, st') => (Raise e, st')
  end.

Definition lift {A} (r : result A) : M A := fun st => (r, st).

Definition get_valid_csv_column_names : M (list string) :=
  fun st => (Ok (_valid_csv_column_names st), st).

Definition record_request (url : string) : M unit :=
  fun st => (Ok (),
             {| _valid_csv_column_names := _valid_csv_column_names st;
                requests_sent := requests_sent st ++ [url] |}).

(** [try: body  except Exception as e: handler(e)] *)
Definition try_except_Exception {A} (body : M A) (handler : exn -> M A) : M A :=
  fun st =>
    match body st with
    | (Ok a, st') => (Ok a, st')
    | (Raise e, st') =>
        if isinstance e Exception then handler e st' else (Raise e, st')
    end.

(** The f-string rendering [{x}] of an extracted value. *)
Definition format_value (w : World) (v : value) : string :=
  match v with
  | Str s => s
  | _ => object_to_string w v
  end.

(** ** Helper functions of the module *)

Section helpers.
Context (w : World).

Definition truthy (max_rows : option Z) : bool :=
  match max_rows with
  | None => false
  | Some n => negb (n =? 0)
  end.

(** [str(n)] for the two counts of the summary line.  Each of them is at
    most [len(df)], and a length is at most [sys.maxsize]: a count that is
    not negative has far fewer digits than the conversion limit, so that
    only a negative count (a negative [max_rows]) can exceed it. *)
Definition count_str (n : Z) : result string :=
  if 0 <=? n then Ok (pretty n) else int_str n.

(** The summary line, given the two counts as text. *)
Definition metadata (total_rows rows_shown : string) : string :=
  String LF (String LF
    ("Data summary: Total " +:+ total_rows +:+ " records, showing "
     +:+ rows_shown +:+ " records.")).

(** [format_limited_output(df, max_rows=None)].  The f-string of the
    summary renders [total_rows], then [rows_shown]. *)
Definition format_limited_output (df : option DataFrame) (max_rows : option Z)
  : result string :=
  match df with
  | None => Ok "No data available"
  | Some df =>
      if DataFrame_empty df then Ok "No data available"
      else
        let total_rows := Z.of_nat (DataFrame_len df) in
        let '(display_df, rows_shown) :=
          match max_rows with
          | Some n =>
              if truthy max_rows && (n <? total_rows)
              then (DataFrame_head n df, n)
              else (df, total_rows)
          | None => (df, total_rows)
          end in
        let output := DataFrame_to_string w display_df in
        total_text ← count_str total_rows;
        shown_text ← count_str rows_shown;
        Ok (output +:+ metadata total_text shown_text)
  end.

(** [response.raise_for_status()] *)
Definition raise_for_status (r : Response) : result unit :=
  if (400 <=? status_code r) && (status_code r <? 500) then
    Raise (Exn HTTPError (pretty (status_code r) +:+ " Client Error: " +:+ reason r
                          +:+ " for url: " +:+ resp_url r))
  else if (500 <=? status_code r) && (status_code r <? 600) then
    Raise (Exn HTTPError (pretty (status_code r) +:+ " Server Error: " +:+ reason r
                          +:+ " for url: " +:+ resp_url r))
  else Ok ().

(** [request_ct(url)].  An [HTTPError] comes from [raise_for_status] and
    carries the response; one raised by [requests.get] itself carries none,
    and reading its status code raises [AttributeError] inside the handler. *)
Definition request_ct (url : string) : M Response :=
  _ ← record_request url;
  match requests_get w url with
  | Responds response =>
      match raise_for_status response with
      | Ok _ => mret response
      | Raise _ =>
          lift (Raise (Exn HTTPError
            ("HTTP Error " +:+ pretty (status_code response) +:+ " for " +:+ url
             +:+ ": " +:+ reason response)))
      end
  | Fails ex =>
      if isinstance ex HTTPError then
        lift (Raise (Exn AttributeError "'NoneType' object has no attribute 'status_code'"))
      else if isinstance ex ConnectionError then
        lift (Raise (Exn ConnectionError
          ("Couldn't connect to " +:+ url
           +:+ ". Check your internet connection or try again later.")))
      else if isinstance ex Timeout then
        lift (Raise (Exn Timeout ("Request to " +:+ url +:+ " timed out.")))
      else
        lift (Raise (Exn Exception
          ("An unexpected error occurred during request to " +:+ url +:+ ": "
           +:+ exc_str ex)))
  end.

Definition decode_utf8 (b : string) : result string :=
  match utf8_error w b with
  | None => Ok b
  | Some msg => Raise (Exn UnicodeDecodeError msg)
  end.

(** [csv_handler(url)] *)
Definition csv_handler (url : string) : M (list (list string)) :=
  response ← request_ct url;
  decoded_content ← lift (decode_utf8 (content response));
  lift (csv.reader (splitlines decoded_content)).

End helpers.

(** ** The embedded field table and the module's start-up code *)

Definition _STUDY_FIELDS_CSV_CONTENT : string :=
"Column Name,Included Data Fields
NCT Number,NCTId
Study Title,BriefTitle
Study URL,NCTId
Acronym,Acronym
Study Status,OverallStatus
Brief Summary,BriefSummary
Study Results,HasResults
Conditions,Condition
Interventions,InterventionType|InterventionName
Primary Outcome Measures,PrimaryOutcomeMeasure|PrimaryOutcomeDescription|PrimaryOutcomeTimeFrame
Secondary Outcome Measures,SecondaryOutcomeMeasure|SecondaryOutcomeDescription|SecondaryOutcomeTimeFrame
Other Outcome Measures,OtherOutcomeMeasure|OtherOutcomeDescription|OtherOutcomeTimeFrame
Sponsor,LeadSponsorName
Collaborators,CollaboratorName
Sex,Sex
Age,MinimumAge|MaximumAge|StdAge
Phases,Phase
Enrollment,EnrollmentCount
Funder Type,LeadSponsorClass
Study Type,StudyType
Study Design,DesignAllocation|DesignInterventionModel|DesignMasking|DesignWhoMasked|DesignPrimaryPurpose
Other IDs,OrgStudyId|SecondaryId
Start Date,StartDate
Primary Completion Date,PrimaryCompletionDate
Completion Date,CompletionDate
First Posted,StudyFirstPostDate
Results First Posted,ResultsFirstSubmitDate
Last Update Posted,LastUpdatePostDate
Locations,LocationFacility|LocationCity|LocationState|LocationZip|LocationCountry
Study Documents,NCTId|LargeDocLabel|LargeDocFilename
".

(** [row[key]] of a [DictReader] row, then [.strip()]. *)
Definition row_field_stripped (row : csv.DictRow) (key : string) : result string :=
  match row !! Some key with
  | None => Raise (Exn KeyError (repr_plain key))
  | Some (csv.VStr s) => Ok (strip s)
  | Some csv.VNone =>
      Raise (Exn AttributeError "'NoneType' object has no attribute 'strip'")
  | Some (csv.VList _) =>
      Raise (Exn AttributeError "'list' object has no attribute 'strip'")
  end.

(** The loop that fills [_valid_csv_column_names], appending to [acc]. *)
Fixpoint collect_column_names (acc : list string) (rows : list csv.DictRow)
  : result (list string) :=
  match rows with
  | [] => Ok acc
  | row :: rest =>
      csv_column ← row_field_stripped row "Column Name";
      collect_column_names (acc ++ [csv_column]) rest
  end.

(** The statements that run when the module is imported. *)
Definition module_init : result Store :=
  rows ← csv.DictReader (StringIO_lines _STUDY_FIELDS_CSV_CONTENT);
  names ← collect_column_names [] rows;
  Ok {| _valid_csv_column_names := names; requests_sent := [] |}.

(** API constants *)
Definition _BASE_URL : string := "https://clinicaltrials.gov/api/v2/".
Definition _JSON : string := "format=json".
Definition _CSV : string := "format=csv".

(** ** The two tools *)

Section tools.
Context (w : World).

(** *** [search_clinical_trials_by_NCT] *)

Definition NCT_url (nct_ID : string) : string :=
  let max_studies := 1 in
  let format_param := _CSV in
  let req := "studies?" +:+ format_param +:+ "&markupFormat=markdown&query.term="
             +:+ nct_ID +:+ "&pageSize=" +:+ pretty max_studies in
  _BASE_URL +:+ req.

(** The local variables of the branch that found the study. *)
Record NCT_found := {
  study_row : Series string;
  summary_text : value;
  title_text : value;
  study_url : value;
  citation_list : list string;
  results_str : string
}.

Definition NCT_found_branch (nct_ID : string) (df : DataFrame) (col : Series Z)
  : result NCT_found :=
  row ← iloc0 (select_eq df col nct_ID);
  let summary := Series_get row "Brief Summary" (Str "No summary available") in
  let title := Series_get row "Study Title" (Str "No Title Available") in
  let url := Series_get row "Study URL"
               (Str ("https://clinicaltrials.gov/study/" +:+ nct_ID)) in
  formatted ← format_limited_output w (Some df) None;
  Ok {| study_row := row;
        summary_text := summary;
        title_text := title;
        study_url := url;
        citation_list := [format_value w title +:+ ": " +:+ format_value w url];
        results_str := formatted |}.

Definition NCT_not_found (nct_ID : string) : string :=
  "Study with NCT ID " +:+ nct_ID +:+ " not found in ClinicalTrials.gov API response.".

(** The body of the [try] block. *)
Definition search_clinical_trials_by_NCT_try (nct_ID : string) : M string :=
  study_data_from_api ← csv_handler w (NCT_url nct_ID);
  match study_data_from_api with
  | header :: ((_ :: _) as rows) =>
      df ← lift (DataFrame_from_records rows header);
      if DataFrame_empty df then mret (NCT_not_found nct_ID)
      else
        g ← lift (DataFrame_getitem df "NCT Number");
        match g with
        | Frame _ =>
            b ← lift (not_any_eq (truth_value_error w) g nct_ID);
            mret (NCT_not_found nct_ID)
        | Column col =>
            absent ← lift (not_any_eq (truth_value_error w) g nct_ID);
            if (absent : bool) then mret (NCT_not_found nct_ID)
            else found ← lift (NCT_found_branch nct_ID df col); mret (results_str found)
        end
  | _ =>
      mret ("Study with NCT ID " +:+ nct_ID +:+ " not found in API response structure.")
  end.

Definition NCT_error_msg (nct_ID : string) (e : exn) : string :=
  "Error fetching study details for NCT ID " +:+ nct_ID +:+ ": " +:+ exc_str e.

Definition search_clinical_trials_by_NCT (nct_ID : string) : M string :=
  try_except_Exception
    (search_clinical_trials_by_NCT_try nct_ID)
    (fun e => mret (NCT_error_msg nct_ID e)).

(** *** [search_clinical_trials_by_keyword] *)

Definition requested_csv_fields : list string :=
  [ "NCT Number"; "Conditions"; "Study Title"; "Brief Summary"; "Study URL";
    "Study Status"; "Phases"; "Start Date"; "Sponsor"; "Enrollment"; "Study Type" ].

(** [set(a).issubset(b)] and [f in b] for lists of strings. *)
Definition issubset (a b : list string) : bool :=
  forallb (fun f => bool_decide (f ∈ b)) a.

(** The f-string of the bound error; rendering [max_studies] may raise. *)
Definition bound_error_msg (max_studies : Z) : result string :=
  requested ← int_str max_studies;
  Ok ("Error: The number of studies can only be between 1 and 1000. (Requested: "
      +:+ requested +:+ ")").

Definition invalid_fields_msg (valid : list string) : string :=
  let invalid_fields := filter (fun f => f ∉ valid) requested_csv_fields in
  "Error: One or more requested fields are not valid! Invalid fields: "
  +:+ join ", " invalid_fields +:+ ". Valid fields are: " +:+ join ", " valid.

Definition concat_api_fields : string := join "|" requested_csv_fields.

Definition keyword_url (keyword : string) (max_studies : Z) : string :=
  let format_param := _CSV in
  let req_params := "&query.term=" +:+ keyword +:+ "&markupFormat=markdown&fields="
                    +:+ concat_api_fields +:+ "&pageSize=" +:+ pretty max_studies in
  _BASE_URL +:+ "studies?" +:+ format_param +:+ req_params.

(** The citation built for one row of the table. *)
Definition keyword_citation (study_row : Series string) : string :=
  let nct_number := Series_get study_row "NCT Number" (Str "NCT Number Missing") in
  let title_text := Series_get study_row "Study Title" (Str "No Title Available") in
  let summary_text := Series_get study_row "Brief Summary" (Str "No Summary Available") in
  let study_url := Series_get study_row "Study URL"
                     (Str ("https://clinicaltrials.gov/study/" +:+ format_value w nct_number)) in
  format_value w title_text +:+ ": " +:+ format_value w study_url.

Definition keyword_no_data_msg (keyword : string) : string :=
  "No studies found for keyword: " +:+ keyword
  +:+ ". The API returned no data or an unexpected structure.".

(** The [try] block after the two validation steps: fetch, decode, build
    the table, format. *)
Definition keyword_fetch_and_format (keyword : string) (max_studies : Z) : M string :=
  results_from_api ← csv_handler w (keyword_url keyword max_studies);
  match results_from_api with
  | header :: ((_ :: _) as rows) =>
      df ← lift (DataFrame_from_records rows header);
      if DataFrame_empty df then
        mret ("No studies found for keyword: " +:+ keyword +:+ ".")
      else
        let citation_list := keyword_citation <$> iterrows df in
        lift (format_limited_output w (Some df) None)
  | _ => mret (keyword_no_data_msg keyword)
  end.

(** The body of the [try] block. *)
Definition search_clinical_trials_by_keyword_try (keyword : string) (max_studies : Z)
  : M string :=
  if (1000 <? max_studies) || (max_studies <? 1) then
    lift (bound_error_msg max_studies)
  else
    valid ← get_valid_csv_column_names;
    if negb (issubset requested_csv_fields valid) then
      mret (invalid_fields_msg valid)
    else
      keyword_fetch_and_format keyword max_studies.

Definition keyword_error_msg (keyword : string) (e : exn) : string :=
  "Error searching studies by keyword '" +:+ keyword +:+ "': " +:+ exc_str e.

Definition search_clinical_trials_by_keyword (keyword : string) (max_studies : Z)
  : M string :=
  try_except_Exception
    (search_clinical_trials_by_keyword_try keyword max_studies)
    (fun e => mret (keyword_error_msg keyword e)).

End tools.

(** ** The store after import, and the stores the tools can reach *)

Definition initial_store : Store :=
  Eval vm_compute in
    match module_init with
    | Ok st => st
    | Raise _ => {| _valid_csv_column_names := []; requests_sent := [] |}
    end.

(** Stores reachable from the freshly imported module by calling the two
    tools any number of times. *)
Inductive reachable (w : World) : Store -> Prop :=
| reachable_init : reachable w initial_store
| reachable_NCT st nct_ID :
    reachable w st ->
    reachable w (search_clinical_trials_by_NCT w nct_ID st).2
| reachable_keyword st keyword max_studies :
    reachable w st ->
    reachable w (search_clinical_trials_by_keyword w keyword max_studies st).2.

(** ** The field table as the specification reads it

    The module reads only the first column of the table.  The second column
    lists, for each display name, the field identifiers of the registry,
    separated by [|]. *)

Fixpoint split_on_go (sep : ascii) (cur : string) (s : string) : list string :=
  match s with
  | EmptyString => [String.rev cur]
  | String c rest =>
      if Ascii.eqb c sep then String.rev cur :: split_on_go sep EmptyString rest
      else split_on_go sep (String c cur) rest
  end.

(** [s.split(sep)] for a one-character separator. *)
Definition split_on (sep : ascii) (s : string) : list string :=
  split_on_go sep EmptyString s.

Definition schema_entry (row : list string) : option (string * list string) :=
  match row with
  | [name; ids] => Some (strip name, split_on "|" ids)
  | _ => None
  end.

(** The (display name, field identifiers) pairs of the table. *)
Definition schema_entries : list (string * list string) :=
  match csv.reader (StringIO_lines _STUDY_FIELDS_CSV_CONTENT) with
  | Ok (_ :: rows) => omap schema_entry rows
  | _ => []
  end.

Fixpoint lookup_entry (name : string) (entries : list (string * list string))
  : list string :=
  match entries with
  | [] => []
  | (n, ids) :: rest => if String.eqb n name then ids else lookup_entry name rest
  end.

Definition field_identifiers (display_name : string) : list string :=
  lookup_entry display_name schema_entries.

(** The [fields] parameter as the specification describes it: the field
    identifiers of the requested display names, joined by [|]. *)
Definition field_identifiers_param : string :=
  join "|" (join "|" <$> (field_identifiers <$> requested_csv_fields)).

(** ** Sample worlds and tables

    Concrete worlds for evaluating the tools: a server that answers every
    request with a fixed body, and a network that refuses connections.  The
    sample renderer prints one line per row. *)

Module Samples.

Definition show_cell (c : cell) : string :=
  match c with
  | Some s => s
  | None => "None"
  end.

Definition plain_to_string (df : DataFrame) : string :=
  join (String LF EmptyString)
       (join "  " (columns df) :: ((fun row => join "  " (show_cell <$> row)) <$> data df)).

Definition serving (body : string) : World :=
  {| requests_get := fun url =>
       Responds {| status_code := 200; reason := "OK"; resp_url := url; content := body |};
     utf8_error := fun _ => None;
     DataFrame_to_string := plain_to_string;
     object_to_string := fun _ => "None";
     truth_value_error := "The truth value of a Series is ambiguous." |}.

Definition offline : World :=
  {| requests_get := fun _ => Fails (Exn ConnectionError "Connection refused");
     utf8_error := fun _ => None;
     DataFrame_to_string := plain_to_string;
     object_to_string := fun _ => "None";
     truth_value_error := "The truth value of a Series is ambiguous." |}.

(** A table of [n] studies with two columns. *)
Definition studies (n : nat) : DataFrame :=
  {| columns := ["NCT Number"; "Study Title"];
     index := seqZ 0 (Z.of_nat n);
     data := (fun i => [Some ("NCT" +:+ pretty i); Some "Trial"]) <$> seq 0 n |}.

(** One study, NCT00000001. *)
Definition body_one_study : string :=
"NCT Number,Study Title
NCT00000001,First trial".

(** Two studies although the request asked for a page of one. *)
Definition body_two_studies : string :=
"NCT Number,Study Title
NCT00000001,First trial
NCT00000002,Second trial".

(** A body whose header has no NCT Number column. *)
Definition body_without_nct_column : string :=
"Study Title,Study Status
First trial,RECRUITING".

(** The tables of the two bodies above. *)
Definition one_study_table : DataFrame :=
  {| columns := ["NCT Number"; "Study Title"];
     index := [0];
     data := [[Some "NCT00000001"; Some "First trial"]] |}.

Definition two_studies_table : DataFrame :=
  {| columns := ["NCT Number"; "Study Title"];
     index := [0; 1];
     data := [[Some "NCT00000001"; Some "First trial"];
              [Some "NCT00000002"; Some "Second trial"]] |}.

End Samples.

(** ** Proof support *)

(** The store after one more request. *)
Definition sent (url : string) (st : Store) : Store :=
  {| _valid_csv_column_names := _valid_csv_column_names st;
     requests_sent := requests_sent st ++ [url] |}.

(** The table that [DataFrame.from_records] builds from records whose
    widest one is as wide as the (non-empty) header. *)
Definition records_table (header : list string) (rows : list (list string)) : DataFrame :=
  {| columns := header;
     index := seqZ 0 (Z.of_nat (List.length rows));
     data := pad_row (List.length header) <$> rows |}.

(** The column at position [i] of a table, as a series. *)
Definition column_series (i : nat) (df : DataFrame) : Series Z :=
  {| labels := index df; values := cell_at i <$> data df |}.

(** Text of the ASCII range, where [strip] above is all of [str.strip]. *)
Fixpoint is_ascii (s : string) : bool :=
  match s with
  | EmptyString => true
  | String c rest => (N_of_ascii c <? 128)%N && is_ascii rest
  end.

(** Unfolds the monadic plumbing of a computation in the goal. *)
Ltac unfold_M :=
  unfold mbind, M_bind, mret, M_ret, lift, get_valid_csv_column_names in *.

(** Case analysis on whatever the goal still branches on. *)
Ltac case_branches :=
  repeat match goal with
         | |- context [match ?x with _ => _ end] => destruct x; cbn [fst snd]
         end.

(** ** The JSON handler

    [json_handler(url)] is [request_ct(url).json()].  Neither tool calls it.
    The parser of the response body belongs to [requests]; it is a parameter
    here, and may raise. *)

Section json.
Context (w : World) {J : Type} (json : Response -> result J).

Definition json_handler (url : string) : M J :=
  response ← request_ct w url;
  lift (json response).

End json.

(** ** Further sample worlds *)

Module Cases.

(** A server that answers every request with the given status line. *)
Definition answering (code : Z) (phrase body : string) : World :=
  {| requests_get := fun url =>
       Responds {| status_code := code; reason := phrase; resp_url := url;
                   content := body |};
     utf8_error := fun _ => None;
     DataFrame_to_string := Samples.plain_to_string;
     object_to_string := fun _ => "None";
     truth_value_error := "The truth value of a Series is ambiguous." |}.

(** A network on which [requests.get] raises the given exception. *)
Definition failing (ex : exn) : World :=
  {| requests_get := fun _ => Fails ex;
     utf8_error := fun _ => None;
     DataFrame_to_string := Samples.plain_to_string;
     object_to_string := fun _ => "None";
     truth_value_error := "The truth value of a Series is ambiguous." |}.

Definition quote : string := String csv.quotechar EmptyString.

(** A body whose second record has a quoted field that spans two lines. *)
Definition body_quoted_two_lines : string :=
  "NCT Number,Brief Summary" +:+ String LF EmptyString
  +:+ "NCT00000001," +:+ quote +:+ "first line" +:+ String LF EmptyString
  +:+ "second line" +:+ quote.

(** A body that holds the header line only. *)
Definition body_header_only : string := "NCT Number,Study Title".

(** A body of two blank lines. *)
Definition body_blank_lines : string := String LF (String LF EmptyString).

(** A store whose list of valid names has been cut down to one name. *)
Definition narrowed_store : Store :=
  {| _valid_csv_column_names := ["NCT Number"]; requests_sent := [] |}.

(** A body that is one field of 131073 letters, one more than the reader's
    size limit allows. *)
Definition body_oversized_field : string :=
  N.iter 131073 (String "a"%char) EmptyString.

End Cases.

(** The exception of [csv] for a field that outgrows the size limit. *)
Definition field_limit_error : exn :=
  Exn CsvError "field larger than field limit (131072)".

(** Text without a line feed or a carriage return. *)
Fixpoint no_newline (s : string) : bool :=
  match s with
  | EmptyString => true
  | String c rest => negb (csv.is_newline c) && no_newline rest
  end.

(** The reader state between characters of text that holds no line feed or
    carriage return: nothing stored holds one, and the machine does not wait
    for the rest of a line end. *)
Definition reader_clean (r : csv.ReaderObj) : Prop :=
  no_newline (csv.field r) = true
  /\ Forall (fun f => no_newline f = true) (csv.fields r)
  /\ csv.state r <> csv.EAT_CRNL.

(** * Properties *)

(** ** Basic facts about the monad and the store *)

Lemma every_class_is_Exception (c : exc_class) : issubclass c Exception = true.
Proof. destruct c; reflexivity. Qed.

Lemma isinstance_Exception (e : exn) : isinstance e Exception = true.
Proof. apply every_class_is_Exception. Qed.

Lemma try_except_Ok {A} (body : M A) handler st a st' :
  body st = (Ok a, st') -> try_except_Exception body handler st = (Ok a, st').
Proof. intros H. unfold try_except_Exception. now rewrite H. Qed.

Lemma try_except_Raise {A} (body : M A) handler st e st' :
  body st = (Raise e, st') -> try_except_Exception body handler st = handler e st'.
Proof.
  intros H. unfold try_except_Exception. rewrite H.
  now rewrite isinstance_Exception.
Qed.

Lemma contains_middle (a b c : string) : contains b (a +:+ b +:+ c).
Proof. now exists a, c. Qed.

Lemma append_cons (x : ascii) (a b : string) : String x a +:+ b = String x (a +:+ b).
Proof. reflexivity. Qed.

Lemma append_assoc (a b c : string) : (a +:+ b) +:+ c = a +:+ b +:+ c.
Proof.
  induction a as [|x a IH]; [reflexivity|].
  rewrite !append_cons. now rewrite IH.
Qed.

Lemma append_nil_r (a : string) : a +:+ EmptyString = a.
Proof.
  induction a as [|x a IH]; [reflexivity|].
  rewrite append_cons. now rewrite IH.
Qed.

Lemma contains_suffix (a b : string) : contains b (a +:+ b).
Proof. exists a, EmptyString. now rewrite append_nil_r. Qed.

(** ** Rendering of integers *)

Lemma int_str_within (n : Z) :
  Z.abs n < 10 ^ 4300 -> int_str n = Ok (pretty n).
Proof.
  intros H. unfold int_str, int_max_str_digits. now apply Z.ltb_lt in H as ->.
Qed.

Lemma int_str_beyond (n : Z) :
  10 ^ 4300 <= Z.abs n ->
  int_str n
  = Raise (Exn ValueError
      "Exceeds the limit (4300 digits) for integer string conversion; use sys.set_int_max_str_digits() to increase the limit").
Proof.
  intros H. unfold int_str, int_max_str_digits. now apply Z.ltb_ge in H as ->.
Qed.

Lemma int_str_negative (n : Z) :
  n < 0 ->
  int_str n
  = if - 10 ^ 4300 <? n then Ok (pretty n)
    else Raise (Exn ValueError
      "Exceeds the limit (4300 digits) for integer string conversion; use sys.set_int_max_str_digits() to increase the limit").
Proof.
  intros Hneg. unfold int_str.
  change (10 ^ int_max_str_digits) with (10 ^ 4300).
  generalize (10 ^ 4300). intros limit.
  destruct (Z.ltb_spec (Z.abs n) limit), (Z.ltb_spec (- limit) n); (reflexivity || lia).
Qed.

Lemma count_str_nonneg (n : Z) : 0 <= n -> count_str n = Ok (pretty n).
Proof. intros H. unfold count_str. now apply Z.leb_le in H as ->. Qed.

Lemma count_str_len (k : nat) : count_str (Z.of_nat k) = Ok (pretty (Z.of_nat k)).
Proof. apply count_str_nonneg, Nat2Z.is_nonneg. Qed.

(** ** Validation of the result-count bound *)

Section bound.
Context (w : World).

(** C1 (amended): when [max_studies] is below 1 or above 1000 and its
    decimal form has at most 4300 digits, the keyword search returns the
    validation error that names the requested value; and for every
    [max_studies] below 1 or above 1000 the store, with its record of
    requests sent, is unchanged: no request has been issued. *)
Theorem keyword_bound_rejected (keyword : string) (max_studies : Z) (st : Store) :
  max_studies < 1 \/ max_studies > 1000 ->
  (Z.abs max_studies < 10 ^ 4300 ->
   search_clinical_trials_by_keyword w keyword max_studies st
   = (Ok ("Error: The number of studies can only be between 1 and 1000. (Requested: "
          +:+ pretty max_studies +:+ ")"), st))
  /\ (search_clinical_trials_by_keyword w keyword max_studies st).2 = st.
Proof.
  intros Hout.
  assert (search_clinical_trials_by_keyword_try w keyword max_studies st
          = (bound_error_msg max_studies, st)) as Hbody.
  { unfold search_clinical_trials_by_keyword_try.
    assert ((1000 <? max_studies) || (max_studies <? 1) = true) as ->.
    { apply orb_true_iff. destruct Hout; [right|left]; apply Z.ltb_lt; lia. }
    reflexivity. }
  unfold search_clinical_trials_by_keyword, try_except_Exception. rewrite Hbody.
  split.
  - intros Hsmall. unfold bound_error_msg. now rewrite int_str_within.
  - destruct (bound_error_msg max_studies); [reflexivity|].
    now rewrite isinstance_Exception.
Qed.

End bound.

Lemma keyword_bound_rejected_witness :
  search_clinical_trials_by_keyword Samples.offline "cancer" 1001 initial_store
  = (Ok "Error: The number of studies can only be between 1 and 1000. (Requested: 1001)",
     initial_store).
Proof.
  exact (proj1 (keyword_bound_rejected Samples.offline "cancer" 1001 initial_store
                  (or_intror (eq_refl : 1001 > 1000)))
           (eq_refl : Z.abs 1001 < 10 ^ 4300)).
Defined.

(** C1 as stated fails for an integer of 4301 digits: rendering it raises
    inside the [try] block and the search returns the text of its [except]
    clause, not the validation error. *)
Lemma keyword_bound_huge_counterexample :
  10 ^ 4300 > 1000
  /\ search_clinical_trials_by_keyword Samples.offline "cancer" (10 ^ 4300) initial_store
     = (Ok "Error searching studies by keyword 'cancer': Exceeds the limit (4300 digits) for integer string conversion; use sys.set_int_max_str_digits() to increase the limit",
        initial_store)
  /\ (search_clinical_trials_by_keyword Samples.offline "cancer" (10 ^ 4300) initial_store).1
     <> Ok ("Error: The number of studies can only be between 1 and 1000. (Requested: "
            +:+ pretty (10 ^ 4300) +:+ ")").
Proof.
  split; [reflexivity|].
  assert (search_clinical_trials_by_keyword Samples.offline "cancer" (10 ^ 4300)
            initial_store
          = (Ok "Error searching studies by keyword 'cancer': Exceeds the limit (4300 digits) for integer string conversion; use sys.set_int_max_str_digits() to increase the limit",
             initial_store)) as Hrun by (vm_compute; reflexivity).
  split; [exact Hrun|].
  rewrite Hrun. cbn [fst]. intros [=].
Qed.

(** ** Errors at the boundary of the tools *)

Section boundary.
Context (w : World).

Lemma NCT_error_msg_contains (nct_ID : string) (e : exn) :
  contains nct_ID (NCT_error_msg nct_ID e) /\ contains (exc_str e) (NCT_error_msg nct_ID e).
Proof.
  unfold NCT_error_msg. split.
  - apply contains_middle.
  - rewrite <- !append_assoc. apply contains_suffix.
Qed.

Lemma keyword_error_msg_contains (keyword : string) (e : exn) :
  contains keyword (keyword_error_msg keyword e)
  /\ contains (exc_str e) (keyword_error_msg keyword e).
Proof.
  unfold keyword_error_msg. split.
  - apply contains_middle.
  - rewrite <- !append_assoc. apply contains_suffix.
Qed.

(** C2: both tools always return a string and never raise; whenever the
    body of the [try] block raises an exception [e], the returned string is
    the error message built from the identifier (or keyword) and [str(e)],
    and it contains both. *)
Theorem tools_catch_every_exception
    (nct_ID keyword : string) (max_studies : Z) (st : Store) :
  (exists s st',
     search_clinical_trials_by_NCT w nct_ID st = (Ok s, st')
     /\ forall e st'',
          search_clinical_trials_by_NCT_try w nct_ID st = (Raise e, st'') ->
          st' = st''
          /\ s = "Error fetching study details for NCT ID " +:+ nct_ID +:+ ": " +:+ exc_str e
          /\ contains nct_ID s /\ contains (exc_str e) s)
  /\ (exists s st',
        search_clinical_trials_by_keyword w keyword max_studies st = (Ok s, st')
        /\ forall e st'',
             search_clinical_trials_by_keyword_try w keyword max_studies st = (Raise e, st'') ->
             st' = st''
             /\ s = "Error searching studies by keyword '" +:+ keyword +:+ "': " +:+ exc_str e
             /\ contains keyword s /\ contains (exc_str e) s).
Proof.
  split.
  - unfold search_clinical_trials_by_NCT, try_except_Exception.
    destruct (search_clinical_trials_by_NCT_try w nct_ID st) as [[s|e] st'] eqn:Hbody.
    + exists s, st'. split; [reflexivity|]. intros e st'' [=].
    + rewrite isinstance_Exception.
      exists (NCT_error_msg nct_ID e), st'. split; [reflexivity|].
      intros e' st'' [= <- <-].
      split; [reflexivity|]. split; [reflexivity|].
      apply NCT_error_msg_contains.
  - unfold search_clinical_trials_by_keyword, try_except_Exception.
    destruct (search_clinical_trials_by_keyword_try w keyword max_studies st)
      as [[s|e] st'] eqn:Hbody.
    + exists s, st'. split; [reflexivity|]. intros e st'' [=].
    + rewrite isinstance_Exception.
      exists (keyword_error_msg keyword e), st'. split; [reflexivity|].
      intros e' st'' [= <- <-].
      split; [reflexivity|]. split; [reflexivity|].
      apply keyword_error_msg_contains.
Qed.

End boundary.

(** With the network down, the lookup returns the error text of the
    connection failure. *)
Lemma tools_catch_every_exception_witness :
  exists s st',
    search_clinical_trials_by_NCT Samples.offline "NCT00000001" initial_store = (Ok s, st')
    /\ s = "Error fetching study details for NCT ID NCT00000001: Couldn't connect to https://clinicaltrials.gov/api/v2/studies?format=csv&markupFormat=markdown&query.term=NCT00000001&pageSize=1. Check your internet connection or try again later.".
Proof.
  destruct (tools_catch_every_exception Samples.offline "NCT00000001" "cancer" 20
              initial_store) as [(s & st' & Hrun & Hraise) _].
  exists s, st'. split; [exact Hrun|].
  destruct (Hraise
              (Exn ConnectionError
                 ("Couldn't connect to " +:+ NCT_url "NCT00000001"
                  +:+ ". Check your internet connection or try again later."))
              (sent (NCT_url "NCT00000001") initial_store) eq_refl)
    as (_ & Hs & _).
  exact Hs.
Defined.

(** ** The formatter *)

Section formatter.
Context (w : World).

Lemma format_limited_output_unset (df : DataFrame) :
  DataFrame_empty df = false ->
  format_limited_output w (Some df) None
  = Ok (DataFrame_to_string w df
        +:+ metadata (pretty (Z.of_nat (DataFrame_len df)))
              (pretty (Z.of_nat (DataFrame_len df)))).
Proof.
  intros He. unfold format_limited_output. rewrite He.
  cbn zeta. now rewrite count_str_len.
Qed.

Lemma slice_to_nonneg {A} (n : Z) (l : list A) :
  0 <= n -> slice_to n l = take (Z.to_nat n) l.
Proof.
  intros Hn. unfold slice_to.
  destruct (0 <=? n) eqn:E; [reflexivity|]. apply Z.leb_gt in E. lia.
Qed.

(** C4: formatting a table of N records with [max_rows = N] gives the same
    string as formatting it with [max_rows] unset. *)
Theorem format_limited_output_full_equals_unset (df : DataFrame) :
  format_limited_output w (Some df) (Some (Z.of_nat (DataFrame_len df)))
  = format_limited_output w (Some df) None.
Proof.
  unfold format_limited_output.
  destruct (DataFrame_empty df); [reflexivity|].
  now rewrite Z.ltb_irrefl, andb_false_r.
Qed.

(** C10: for a non-empty table, [max_rows = 0] shows every record, with the
    summary counting total = shown, exactly as when [max_rows] is unset. *)
Theorem format_limited_output_zero_shows_all (df : DataFrame) :
  DataFrame_empty df = false ->
  format_limited_output w (Some df) (Some 0)
  = Ok (DataFrame_to_string w df
        +:+ String LF (String LF
              ("Data summary: Total " +:+ pretty (Z.of_nat (DataFrame_len df))
               +:+ " records, showing " +:+ pretty (Z.of_nat (DataFrame_len df))
               +:+ " records.")))
  /\ format_limited_output w (Some df) (Some 0) = format_limited_output w (Some df) None.
Proof.
  intros He.
  assert (format_limited_output w (Some df) (Some 0)
          = format_limited_output w (Some df) None) as Hsame.
  { unfold format_limited_output. now rewrite He. }
  split; [|exact Hsame].
  rewrite Hsame. exact (format_limited_output_unset df He).
Qed.

(** C3 (amended): for a non-empty table of T records and
    [1 <= max_rows < T], the output is the rendering of the first [max_rows]
    records, in their order, followed by the summary with T and
    [max_rows]. *)
Theorem format_limited_output_truncates (df : DataFrame) (max_rows : Z) :
  DataFrame_empty df = false ->
  1 <= max_rows < Z.of_nat (DataFrame_len df) ->
  format_limited_output w (Some df) (Some max_rows)
  = Ok (DataFrame_to_string w
          {| columns := columns df;
             index := take (Z.to_nat max_rows) (index df);
             data := take (Z.to_nat max_rows) (data df) |}
        +:+ String LF (String LF
              ("Data summary: Total " +:+ pretty (Z.of_nat (DataFrame_len df))
               +:+ " records, showing " +:+ pretty max_rows +:+ " records."))).
Proof.
  intros He [Hlo Hhi]. unfold format_limited_output. rewrite He.
  assert (truthy (Some max_rows) = true) as ->.
  { unfold truthy. apply negb_true_iff, Z.eqb_neq. lia. }
  assert ((max_rows <? Z.of_nat (DataFrame_len df)) = true) as -> by (apply Z.ltb_lt; lia).
  cbn [andb]. cbn zeta.
  rewrite count_str_len, (count_str_nonneg max_rows) by lia.
  unfold DataFrame_head.
  rewrite !slice_to_nonneg by lia. reflexivity.
Qed.

End formatter.

Lemma format_limited_output_zero_shows_all_witness :
  format_limited_output (Samples.serving EmptyString) (Some (Samples.studies 2)) (Some 0)
  = Ok (Samples.plain_to_string (Samples.studies 2)
        +:+ String LF (String LF "Data summary: Total 2 records, showing 2 records.")).
Proof.
  exact (proj1 (format_limited_output_zero_shows_all
                  (Samples.serving EmptyString) (Samples.studies 2) eq_refl)).
Defined.

(** Fifty records formatted with [max_rows = 10]. *)
Lemma format_limited_output_truncates_witness :
  format_limited_output (Samples.serving EmptyString) (Some (Samples.studies 50)) (Some 10)
  = Ok (Samples.plain_to_string (Samples.studies 10)
        +:+ String LF (String LF "Data summary: Total 50 records, showing 10 records.")).
Proof.
  exact (format_limited_output_truncates
           (Samples.serving EmptyString) (Samples.studies 50) 10 eq_refl
           (conj (proj1 (Z.leb_le 1 10) eq_refl) (proj1 (Z.ltb_lt 10 50) eq_refl))).
Defined.

(** C3 as stated fails at [max_rows = 0]: a table of two records is shown
    whole and the summary says 2 shown, not 0. *)
Lemma format_limited_output_zero_counterexample :
  let w := Samples.serving EmptyString in
  let df := Samples.studies 2 in
  DataFrame_empty df = false
  /\ 0 < Z.of_nat (DataFrame_len df)
  /\ format_limited_output w (Some df) (Some 0)
     = Ok (DataFrame_to_string w df
           +:+ String LF (String LF "Data summary: Total 2 records, showing 2 records."))
  /\ format_limited_output w (Some df) (Some 0)
     <> Ok (DataFrame_to_string w (DataFrame_head 0 df)
            +:+ String LF (String LF "Data summary: Total 2 records, showing 0 records.")).
Proof.
  cbv zeta. split; [reflexivity|]. split; [reflexivity|].
  split; [vm_compute; reflexivity|].
  vm_compute. discriminate.
Qed.

(** ** What the tools do to the store *)

Section store.
Context (w : World).

Lemma request_ct_store (url : string) (st : Store) :
  (request_ct w url st).2 = sent url st.
Proof.
  unfold request_ct, record_request. unfold_M. cbn [fst snd].
  case_branches; reflexivity.
Qed.

Lemma csv_handler_store (url : string) (st : Store) :
  (csv_handler w url st).2 = sent url st.
Proof.
  unfold csv_handler. unfold_M.
  pose proof (request_ct_store url st) as H.
  destruct (request_ct w url st) as [[r|e] st1]; cbn [snd] in H; subst st1;
    [|reflexivity].
  now destruct (decode_utf8 w (content r)).
Qed.

Lemma NCT_try_store (nct_ID : string) (st : Store) :
  (search_clinical_trials_by_NCT_try w nct_ID st).2 = sent (NCT_url nct_ID) st.
Proof.
  unfold search_clinical_trials_by_NCT_try. unfold_M.
  pose proof (csv_handler_store (NCT_url nct_ID) st) as H.
  destruct (csv_handler w (NCT_url nct_ID) st) as [[rows|e] st1];
    cbn [snd] in H; subst st1; [|reflexivity].
  case_branches; reflexivity.
Qed.

Lemma keyword_fetch_and_format_store (keyword : string) (max_studies : Z) (st : Store) :
  (keyword_fetch_and_format w keyword max_studies st).2
  = sent (keyword_url keyword max_studies) st.
Proof.
  unfold keyword_fetch_and_format. unfold_M.
  pose proof (csv_handler_store (keyword_url keyword max_studies) st) as H.
  destruct (csv_handler w (keyword_url keyword max_studies) st) as [[rows|e] st1];
    cbn [snd] in H; subst st1; [|reflexivity].
  case_branches; reflexivity.
Qed.

Lemma try_except_store {A} (body : M A) (msg : exn -> A) (st : Store) :
  (try_except_Exception body (fun e => mret (msg e)) st).2 = (body st).2.
Proof.
  unfold try_except_Exception. destruct (body st) as [[a|e] st']; [reflexivity|].
  now rewrite isinstance_Exception.
Qed.

Lemma NCT_store (nct_ID : string) (st : Store) :
  (search_clinical_trials_by_NCT w nct_ID st).2 = sent (NCT_url nct_ID) st.
Proof.
  unfold search_clinical_trials_by_NCT. rewrite try_except_store.
  apply NCT_try_store.
Qed.

Lemma keyword_try_names (keyword : string) (max_studies : Z) (st : Store) :
  _valid_csv_column_names (search_clinical_trials_by_keyword_try w keyword max_studies st).2
  = _valid_csv_column_names st.
Proof.
  unfold search_clinical_trials_by_keyword_try. unfold_M.
  destruct ((1000 <? max_studies) || (max_studies <? 1)); [reflexivity|].
  destruct (negb _); [reflexivity|].
  now rewrite keyword_fetch_and_format_store.
Qed.

(** The list of valid column names is the one built at import in every
    store the tools can reach. *)
Lemma reachable_names (st : Store) :
  reachable w st ->
  _valid_csv_column_names st = _valid_csv_column_names initial_store.
Proof.
  induction 1 as [|st nct_ID _ IH|st keyword max_studies _ IH].
  - reflexivity.
  - now rewrite NCT_store.
  - unfold search_clinical_trials_by_keyword. rewrite try_except_store.
    now rewrite keyword_try_names.
Qed.

End store.

(** ** The field table and the requested fields *)

Lemma embedded_table_is_ascii : is_ascii _STUDY_FIELDS_CSV_CONTENT = true.
Proof. vm_compute. reflexivity. Qed.

Lemma module_init_ok : module_init = Ok initial_store.
Proof. vm_compute. reflexivity. Qed.

Lemma requested_fields_valid :
  issubset requested_csv_fields (_valid_csv_column_names initial_store) = true.
Proof. vm_compute. reflexivity. Qed.

Lemma issubset_elem_of (a b : list string) :
  issubset a b = true -> forall f, f ∈ a -> f ∈ b.
Proof.
  unfold issubset. intros H f Hf.
  rewrite forallb_forall in H.
  apply list_elem_of_In in Hf.
  apply H in Hf. now apply bool_decide_eq_true in Hf.
Qed.

Lemma reachable_issubset (w : World) (st : Store) :
  reachable w st ->
  issubset requested_csv_fields (_valid_csv_column_names st) = true.
Proof.
  intros Hreach. rewrite (reachable_names w st Hreach).
  apply requested_fields_valid.
Qed.

Lemma schema_entries_names :
  fst <$> schema_entries = _valid_csv_column_names initial_store.
Proof. vm_compute. reflexivity. Qed.

(** C8: in every store the tools can reach, each requested field is one of
    the valid column names, the subset test of the keyword search succeeds,
    and the body of the search is the bound check followed directly by the
    fetch: the branch that reports invalid fields is never taken. *)
Theorem invalid_fields_branch_unreachable (w : World) (st : Store) :
  reachable w st ->
  (forall f, f ∈ requested_csv_fields -> f ∈ _valid_csv_column_names st)
  /\ issubset requested_csv_fields (_valid_csv_column_names st) = true
  /\ forall keyword max_studies,
       search_clinical_trials_by_keyword_try w keyword max_studies st
       = if (1000 <? max_studies) || (max_studies <? 1)
         then (bound_error_msg max_studies, st)
         else keyword_fetch_and_format w keyword max_studies st.
Proof.
  intros Hreach.
  pose proof (reachable_issubset w st Hreach) as Hsub.
  split; [now apply issubset_elem_of|]. split; [exact Hsub|].
  intros keyword max_studies.
  unfold search_clinical_trials_by_keyword_try. unfold_M.
  destruct ((1000 <? max_studies) || (max_studies <? 1)); [reflexivity|].
  now rewrite Hsub.
Qed.

(** The subset test still succeeds after a keyword search has run. *)
Lemma invalid_fields_branch_unreachable_witness :
  issubset requested_csv_fields
    (_valid_csv_column_names
       (search_clinical_trials_by_keyword
          (Samples.serving Samples.body_two_studies) "cancer" 20 initial_store).2)
  = true.
Proof.
  exact (proj1 (proj2 (invalid_fields_branch_unreachable
                         (Samples.serving Samples.body_two_studies) _
                         (reachable_keyword _ _ "cancer" 20 (reachable_init _))))).
Defined.

(** C9 (amended): importing the module succeeds and leaves a list of
    exactly 30 valid display names, all different, which are the first
    column of the 30 rows of the embedded table, each row giving a non-empty
    list of field identifiers; no call of the tools changes that list. *)
Theorem valid_column_names_fixed_at_import :
  module_init = Ok initial_store
  /\ List.length (_valid_csv_column_names initial_store) = 30%nat
  /\ NoDup (_valid_csv_column_names initial_store)
  /\ List.length schema_entries = 30%nat
  /\ fst <$> schema_entries = _valid_csv_column_names initial_store
  /\ Forall (fun e => e.2 <> []) schema_entries
  /\ forall w st, reachable w st ->
       _valid_csv_column_names st = _valid_csv_column_names initial_store.
Proof.
  split; [exact module_init_ok|].
  split; [reflexivity|].
  split; [apply (bool_decide_unpack _); vm_compute; exact I|].
  split; [vm_compute; reflexivity|].
  split; [exact schema_entries_names|].
  split; [|exact reachable_names].
  apply (bool_decide_unpack _). vm_compute. exact I.
Qed.

(** C9 as stated fails on the count: the table has 30 rows, not 29. *)
Lemma valid_column_names_count_counterexample :
  List.length (_valid_csv_column_names initial_store) = 30%nat
  /\ List.length schema_entries = 30%nat
  /\ List.length (_valid_csv_column_names initial_store) <> 29%nat.
Proof.
  split; [reflexivity|]. split; [vm_compute; reflexivity|].
  vm_compute. discriminate.
Qed.

(** ** The URL of the keyword search *)

Lemma keyword_store (w : World) (keyword : string) (max_studies : Z) (st : Store) :
  issubset requested_csv_fields (_valid_csv_column_names st) = true ->
  1 <= max_studies <= 1000 ->
  (search_clinical_trials_by_keyword w keyword max_studies st).2
  = sent (keyword_url keyword max_studies) st.
Proof.
  intros Hsub Hrange.
  unfold search_clinical_trials_by_keyword. rewrite try_except_store.
  unfold search_clinical_trials_by_keyword_try. unfold_M.
  assert ((1000 <? max_studies) || (max_studies <? 1) = false) as ->.
  { apply orb_false_iff. split; apply Z.ltb_ge; lia. }
  rewrite Hsub. cbn [negb]. apply keyword_fetch_and_format_store.
Qed.

(** C6 (amended): a keyword search with a bound in range sends exactly one
    request, and its [fields] parameter is the list of requested display
    names (the CSV column names) joined by [|]. *)
Theorem keyword_url_fields_are_display_names
    (w : World) (keyword : string) (max_studies : Z) (st : Store) :
  reachable w st ->
  1 <= max_studies <= 1000 ->
  requests_sent (search_clinical_trials_by_keyword w keyword max_studies st).2
  = requests_sent st
    ++ ["https://clinicaltrials.gov/api/v2/studies?format=csv&query.term=" +:+ keyword
        +:+ "&markupFormat=markdown&fields=" +:+ join "|" requested_csv_fields
        +:+ "&pageSize=" +:+ pretty max_studies]
  /\ join "|" requested_csv_fields
     = "NCT Number|Conditions|Study Title|Brief Summary|Study URL|Study Status|Phases|Start Date|Sponsor|Enrollment|Study Type"
  /\ forall f, f ∈ requested_csv_fields -> f ∈ fst <$> schema_entries.
Proof.
  intros Hreach Hrange.
  pose proof (reachable_issubset w st Hreach) as Hsub.
  split; [|split].
  - rewrite keyword_store by assumption. reflexivity.
  - vm_compute. reflexivity.
  - intros f Hf. apply (issubset_elem_of _ _ Hsub) in Hf.
    rewrite (reachable_names w st Hreach) in Hf.
    now rewrite schema_entries_names.
Qed.

Lemma keyword_url_fields_are_display_names_witness :
  requests_sent
    (search_clinical_trials_by_keyword Samples.offline "cancer" 20 initial_store).2
  = ["https://clinicaltrials.gov/api/v2/studies?format=csv&query.term=cancer&markupFormat=markdown&fields=NCT Number|Conditions|Study Title|Brief Summary|Study URL|Study Status|Phases|Start Date|Sponsor|Enrollment|Study Type&pageSize=20"].
Proof.
  exact (proj1 (keyword_url_fields_are_display_names
                  Samples.offline "cancer" 20 initial_store (reachable_init _)
                  (conj (proj1 (Z.leb_le 1 20) eq_refl)
                        (proj1 (Z.leb_le 20 1000) eq_refl)))).
Defined.

(** C6 as stated fails: the request carries the display names, while the
    field identifiers that the table gives for them are a different
    string. *)
Lemma keyword_url_fields_counterexample :
  requests_sent
    (search_clinical_trials_by_keyword
       (Samples.serving Samples.body_two_studies) "cancer" 20 initial_store).2
  = ["https://clinicaltrials.gov/api/v2/studies?format=csv&query.term=cancer&markupFormat=markdown&fields=NCT Number|Conditions|Study Title|Brief Summary|Study URL|Study Status|Phases|Start Date|Sponsor|Enrollment|Study Type&pageSize=20"]
  /\ field_identifiers_param
     = "NCTId|Condition|BriefTitle|BriefSummary|NCTId|OverallStatus|Phase|StartDate|LeadSponsorName|EnrollmentCount|StudyType"
  /\ concat_api_fields <> field_identifiers_param.
Proof.
  split; [vm_compute; reflexivity|].
  split; [vm_compute; reflexivity|].
  vm_compute. discriminate.
Qed.

(** ** Building the table and locating the study *)

Lemma cell_at_pad_row (i k : nat) (row : list string) :
  cell_at i (pad_row k row) = row !! i.
Proof.
  unfold cell_at, pad_row.
  destruct (decide (i < List.length row)%nat) as [Hlt|Hge].
  - rewrite lookup_app_l by now rewrite length_fmap.
    rewrite list_lookup_fmap.
    destruct (lookup_lt_is_Some_2 row i Hlt) as [x ->]. reflexivity.
  - rewrite (lookup_ge_None_2 row i) by lia.
    rewrite lookup_app_r by (rewrite length_fmap; lia).
    destruct (replicate _ None !! _) as [c|] eqn:E; [|reflexivity].
    apply lookup_replicate in E as [-> _]. reflexivity.
Qed.

Lemma cell_eqb_true (c : cell) (s : string) : cell_eqb c s = true <-> c = Some s.
Proof.
  destruct c as [x|]; cbn.
  - rewrite String.eqb_eq. split; congruence.
  - split; discriminate.
Qed.

Lemma positions_from_not_nil (n i : nat) (key : string) (names : list string) :
  positions_from n key names = [i] -> names <> [].
Proof. intros H ->. discriminate. Qed.

Section table.
Context (header : list string) (rows : list (list string)) (i : nat).
Hypothesis rows_not_nil : rows <> [].
Hypothesis widths : max_width rows = List.length header.
Hypothesis nct_column : positions "NCT Number" header = [i].

Lemma from_records_table :
  DataFrame_from_records rows header = Ok (records_table header rows).
Proof.
  unfold DataFrame_from_records, records_table.
  destruct rows as [|r rest]; [congruence|].
  rewrite widths, Nat.eqb_refl. cbn [negb].
  assert (header <> []) as Hne by (eapply positions_from_not_nil, nct_column).
  destruct header as [|h hs]; [congruence|]. reflexivity.
Qed.

Lemma table_not_empty : DataFrame_empty (records_table header rows) = false.
Proof.
  unfold DataFrame_empty, records_table. cbn [columns index].
  assert (header <> []) as Hne by (eapply positions_from_not_nil, nct_column).
  rewrite length_seqZ, Nat2Z.id.
  destruct header; [congruence|]. destruct rows; [congruence|]. reflexivity.
Qed.

Lemma getitem_table :
  DataFrame_getitem (records_table header rows) "NCT Number"
  = Ok (Column (column_series i (records_table header rows))).
Proof.
  unfold DataFrame_getitem. cbn [columns records_table]. now rewrite nct_column.
Qed.

Lemma any_eq_table (s : string) :
  existsb (fun c => cell_eqb c s) (values (column_series i (records_table header rows)))
  = true
  <-> Exists (fun row => row !! i = Some s) rows.
Proof.
  unfold column_series, records_table. cbn [values data].
  rewrite existsb_exists, Exists_exists. split.
  - intros (c & Hin & Hc).
    apply list_elem_of_In, list_elem_of_fmap in Hin as (r & -> & Hr).
    apply list_elem_of_fmap in Hr as (row & -> & Hrow).
    exists row. split; [exact Hrow|].
    apply cell_eqb_true in Hc. now rewrite cell_at_pad_row in Hc.
  - intros (row & Hrow & Hc).
    exists (cell_at i (pad_row (List.length header) row)). split.
    + apply list_elem_of_In, list_elem_of_fmap.
      exists (pad_row (List.length header) row). split; [reflexivity|].
      apply list_elem_of_fmap. now exists row.
    + apply cell_eqb_true. now rewrite cell_at_pad_row.
Qed.

End table.

Lemma mask_select_first {A} (h : A -> bool) (pre : list A) (x : A) (post : list A) :
  Forall (fun y => h y = false) pre ->
  h x = true ->
  mask_select (pre ++ x :: post) (h <$> pre ++ x :: post)
  = x :: mask_select post (h <$> post).
Proof.
  intros Hpre Hx. induction Hpre as [|y pre Hy _ IH]; cbn.
  - now rewrite Hx.
  - now rewrite Hy.
Qed.

Lemma Exists_first (i : nat) (s : string) (rows : list (list string)) :
  Exists (fun row => row !! i = Some s) rows ->
  exists pre row post,
    rows = pre ++ row :: post
    /\ Forall (fun r => r !! i <> Some s) pre
    /\ row !! i = Some s.
Proof.
  induction rows as [|r rows IH]; intros Hex; [now apply Exists_nil in Hex|].
  destruct (decide (r !! i = Some s)) as [Hr|Hr].
  - exists [], r, rows. split; [reflexivity|]. split; [constructor|exact Hr].
  - apply Exists_cons in Hex as [Hex|Hex]; [contradiction|].
    destruct (IH Hex) as (pre & row & post & -> & Hpre & Hrow).
    exists (r :: pre), row, post.
    split; [reflexivity|]. split; [now constructor|exact Hrow].
Qed.

Section locate.
Context (w : World).
Context (nct_ID : string) (st st' : Store).
Context (header : list string) (rows : list (list string)) (i : nat).
Hypothesis decoded : csv_handler w (NCT_url nct_ID) st = (Ok (header :: rows), st').
Hypothesis widths : max_width rows = List.length header.
Hypothesis nct_column : positions "NCT Number" header = [i].

Lemma NCT_absent :
  rows <> [] ->
  Forall (fun row => row !! i <> Some nct_ID) rows ->
  search_clinical_trials_by_NCT w nct_ID st = (Ok (NCT_not_found nct_ID), st').
Proof.
  intros Hne Hall. apply try_except_Ok.
  unfold search_clinical_trials_by_NCT_try. unfold_M. rewrite decoded.
  destruct rows as [|r rest] eqn:Erows; [congruence|]. rewrite <- Erows in *.
  rewrite (from_records_table header rows i) by assumption.
  rewrite (table_not_empty header rows i) by assumption.
  rewrite (getitem_table header rows i) by assumption.
  unfold not_any_eq.
  destruct (existsb _ _) eqn:Hany; [|reflexivity].
  apply any_eq_table, Exists_exists in Hany as (row & Hin & Hrow).
  rewrite Forall_forall in Hall. now apply Hall in Hin.
Qed.

Lemma NCT_present :
  Exists (fun row => row !! i = Some nct_ID) rows ->
  exists found pre row post,
    NCT_found_branch w nct_ID (records_table header rows)
      (column_series i (records_table header rows)) = Ok found
    /\ rows = pre ++ row :: post
    /\ Forall (fun r => r !! i <> Some nct_ID) pre
    /\ row !! i = Some nct_ID
    /\ study_row found
       = {| labels := header; values := pad_row (List.length header) row |}
    /\ format_limited_output w (Some (records_table header rows)) None
       = Ok (results_str found)
    /\ search_clinical_trials_by_NCT w nct_ID st = (Ok (results_str found), st').
Proof.
  intros Hex.
  assert (rows <> []) as Hne by (intros ->; now apply Exists_nil in Hex).
  destruct (Exists_first i nct_ID rows Hex) as (pre & row & post & Hrows & Hpre & Hrow).
  set (h := fun r : list cell => cell_eqb (cell_at i r) nct_ID).
  assert (iloc0 (select_eq (records_table header rows)
                   (column_series i (records_table header rows)) nct_ID)
          = Ok {| labels := header; values := pad_row (List.length header) row |}) as Hiloc.
  { unfold iloc0, select_eq, column_series, records_table. cbn [data values columns].
    rewrite <- list_fmap_compose. change (_ ∘ _) with h.
    rewrite Hrows, fmap_app, fmap_cons.
    rewrite mask_select_first; [reflexivity| |].
    - apply Forall_fmap. eapply Forall_impl; [exact Hpre|].
      intros r Hr. unfold h, compose.
      destruct (cell_eqb _ _) eqn:E; [|reflexivity].
      apply cell_eqb_true in E. now rewrite cell_at_pad_row in E.
    - unfold h. apply cell_eqb_true. now rewrite cell_at_pad_row. }
  assert (DataFrame_empty (records_table header rows) = false) as Hfull
    by (apply (table_not_empty header rows i); assumption).
  pose proof (format_limited_output_unset w _ Hfull) as Hfmt.
  unfold NCT_found_branch. rewrite Hiloc. cbn [mbind result_bind].
  rewrite Hfmt. cbn [mbind result_bind].
  eexists _, pre, row, post.
  split; [reflexivity|]. split; [exact Hrows|]. split; [exact Hpre|].
  split; [exact Hrow|]. split; [reflexivity|]. split; [reflexivity|].
  apply try_except_Ok.
  unfold search_clinical_trials_by_NCT_try. unfold_M. rewrite decoded.
  destruct rows as [|r rest] eqn:Erows; [congruence|]. rewrite <- Erows in *.
  rewrite (from_records_table header rows i) by assumption.
  rewrite (table_not_empty header rows i) by assumption.
  rewrite (getitem_table header rows i) by assumption.
  unfold not_any_eq.
  assert (existsb (fun c => cell_eqb c nct_ID)
            (values (column_series i (records_table header rows))) = true) as ->.
  { now apply any_eq_table. }
  cbn [negb]. unfold NCT_found_branch. rewrite Hiloc. cbn [mbind result_bind].
  rewrite Hfmt. reflexivity.
Qed.

End locate.

(** ** Lookup by identifier *)

(** C7 (amended): when the decode gives a header and at least one data row,
    the widest data row has as many fields as the header, the header names
    the NCT Number column exactly once, and no data row holds NCT00000000 in
    that column, the lookup returns exactly the not-found sentence. *)
Theorem NCT_absent_identifier_not_found
    (w : World) (st st' : Store) (header : list string) (rows : list (list string))
    (i : nat) :
  csv_handler w (NCT_url "NCT00000000") st = (Ok (header :: rows), st') ->
  rows <> [] ->
  max_width rows = List.length header ->
  positions "NCT Number" header = [i] ->
  Forall (fun row => row !! i <> Some "NCT00000000") rows ->
  search_clinical_trials_by_NCT w "NCT00000000" st
  = (Ok "Study with NCT ID NCT00000000 not found in ClinicalTrials.gov API response.",
     st').
Proof.
  intros Hdec Hne Hw Hcol Hall.
  exact (NCT_absent w "NCT00000000" st st' header rows i Hdec Hw Hcol Hne Hall).
Qed.

Lemma NCT_absent_identifier_not_found_witness :
  search_clinical_trials_by_NCT (Samples.serving Samples.body_one_study)
    "NCT00000000" initial_store
  = (Ok "Study with NCT ID NCT00000000 not found in ClinicalTrials.gov API response.",
     sent (NCT_url "NCT00000000") initial_store).
Proof.
  apply (NCT_absent_identifier_not_found
           (Samples.serving Samples.body_one_study) initial_store _
           ["NCT Number"; "Study Title"] [["NCT00000001"; "First trial"]] 0%nat).
  - vm_compute. reflexivity.
  - discriminate.
  - reflexivity.
  - reflexivity.
  - repeat constructor. discriminate.
Defined.

(** C7 as stated fails when the decoded header has no NCT Number column:
    the decode succeeds with one data row, no row holds the identifier, and
    the lookup returns the error text of the [KeyError]. *)
Lemma NCT_missing_column_counterexample :
  let w := Samples.serving Samples.body_without_nct_column in
  (csv_handler w (NCT_url "NCT00000000") initial_store).1
  = Ok [["Study Title"; "Study Status"]; ["First trial"; "RECRUITING"]]
  /\ (search_clinical_trials_by_NCT w "NCT00000000" initial_store).1
     = Ok "Error fetching study details for NCT ID NCT00000000: 'NCT Number'"
  /\ (search_clinical_trials_by_NCT w "NCT00000000" initial_store).1
     <> Ok "Study with NCT ID NCT00000000 not found in ClinicalTrials.gov API response.".
Proof.
  cbv zeta. split; [vm_compute; reflexivity|].
  split; [vm_compute; reflexivity|].
  vm_compute. discriminate.
Qed.

(** C5 (amended): when the table builds from the decoded rows with a single
    NCT Number column and some row holds the requested identifier there, the
    first such row is selected, title, summary and URL are read from it with
    their fallback defaults, and the returned text is the formatted table of
    all decoded data rows; it is the one-row table of the selected row when
    the decode holds exactly one data row. *)
Theorem NCT_found_formats_decoded_table
    (w : World) (nct_ID : string) (st st' : Store)
    (header : list string) (rows : list (list string)) (i : nat) :
  csv_handler w (NCT_url nct_ID) st = (Ok (header :: rows), st') ->
  max_width rows = List.length header ->
  positions "NCT Number" header = [i] ->
  Exists (fun row => row !! i = Some nct_ID) rows ->
  exists found pre row post,
    NCT_found_branch w nct_ID (records_table header rows)
      (column_series i (records_table header rows)) = Ok found
    /\ rows = pre ++ row :: post
    /\ Forall (fun r => r !! i <> Some nct_ID) pre
    /\ row !! i = Some nct_ID
    /\ study_row found
       = {| labels := header; values := pad_row (List.length header) row |}
    /\ summary_text found
       = Series_get (study_row found) "Brief Summary" (Str "No summary available")
    /\ title_text found
       = Series_get (study_row found) "Study Title" (Str "No Title Available")
    /\ study_url found
       = Series_get (study_row found) "Study URL"
           (Str ("https://clinicaltrials.gov/study/" +:+ nct_ID))
    /\ search_clinical_trials_by_NCT w nct_ID st
       = (Ok (DataFrame_to_string w (records_table header rows)
              +:+ String LF (String LF
                    ("Data summary: Total " +:+ pretty (Z.of_nat (List.length rows))
                     +:+ " records, showing " +:+ pretty (Z.of_nat (List.length rows))
                     +:+ " records."))),
          st')
    /\ (rows = [row] ->
        records_table header rows
        = {| columns := header; index := [0]; data := [values (study_row found)] |}).
Proof.
  intros Hdec Hw Hcol Hex.
  destruct (NCT_present w nct_ID st st' header rows i Hdec Hw Hcol Hex)
    as (found & pre & row & post & Hfound & Hrows & Hpre & Hrow & Hsel & Hres & Hrun).
  assert (rows <> []) as Hne by (intros ->; now apply Exists_nil in Hex).
  rewrite format_limited_output_unset in Hres
    by (apply (table_not_empty header rows i); assumption).
  injection Hres as Hres. rewrite <- Hres in Hrun. clear Hres.
  exists found, pre, row, post.
  split; [exact Hfound|]. split; [exact Hrows|]. split; [exact Hpre|].
  split; [exact Hrow|]. split; [exact Hsel|].
  unfold NCT_found_branch in Hfound.
  destruct (iloc0 _) as [r|e]; [|discriminate].
  cbn [mbind result_bind] in Hfound.
  destruct (format_limited_output _ _ _) as [text|e]; [|discriminate].
  injection Hfound as <-.
  split; [reflexivity|]. split; [reflexivity|]. split; [reflexivity|].
  split.
  - rewrite Hrun. unfold DataFrame_len, records_table. cbn [data].
    now rewrite length_fmap.
  - intros ->. cbn [study_row] in Hsel. subst r. reflexivity.
Qed.

Lemma NCT_found_formats_decoded_table_witness :
  search_clinical_trials_by_NCT (Samples.serving Samples.body_one_study)
    "NCT00000001" initial_store
  = (Ok (Samples.plain_to_string Samples.one_study_table
         +:+ String LF (String LF "Data summary: Total 1 records, showing 1 records.")),
     sent (NCT_url "NCT00000001") initial_store).
Proof.
  destruct (NCT_found_formats_decoded_table
              (Samples.serving Samples.body_one_study) "NCT00000001"
              initial_store (sent (NCT_url "NCT00000001") initial_store)
              ["NCT Number"; "Study Title"] [["NCT00000001"; "First trial"]] 0%nat
              eq_refl eq_refl eq_refl
              (Exists_cons_hd (fun row : list string => row !! 0%nat = Some "NCT00000001")
                 ["NCT00000001"; "First trial"] [] eq_refl))
    as (found & pre & row & post & _ & _ & _ & _ & _ & _ & _ & _ & Hrun & _).
  exact Hrun.
Defined.

(** C5 as stated fails when the decode holds two data rows: the returned
    text renders both rows, not the one-row table of the matching row. *)
Lemma NCT_two_rows_counterexample :
  let w := Samples.serving Samples.body_two_studies in
  (csv_handler w (NCT_url "NCT00000001") initial_store).1
  = Ok [["NCT Number"; "Study Title"];
        ["NCT00000001"; "First trial"];
        ["NCT00000002"; "Second trial"]]
  /\ (search_clinical_trials_by_NCT w "NCT00000001" initial_store).1
     = format_limited_output w (Some Samples.two_studies_table) None
  /\ format_limited_output w (Some Samples.two_studies_table) None
     = Ok (DataFrame_to_string w Samples.two_studies_table
           +:+ String LF (String LF "Data summary: Total 2 records, showing 2 records."))
  /\ (search_clinical_trials_by_NCT w "NCT00000001" initial_store).1
     <> format_limited_output w (Some Samples.one_study_table) None.
Proof.
  cbv zeta. split; [vm_compute; reflexivity|].
  split; [vm_compute; reflexivity|].
  split; [vm_compute; reflexivity|].
  vm_compute. discriminate.
Qed.

(** * Further properties of the module *)

(** ** The formatter at its edges *)

Lemma length_append (a b : string) :
  String.length (a +:+ b) = (String.length a + String.length b)%nat.
Proof.
  induction a as [|x a IH]; [reflexivity|].
  rewrite append_cons. cbn [String.length]. now rewrite IH.
Qed.

Lemma metadata_length (total_rows rows_shown : string) :
  (22 <= String.length (metadata total_rows rows_shown))%nat.
Proof.
  unfold metadata. cbn [String.length].
  rewrite length_append. cbn [String.length]. lia.
Qed.

Lemma formatted_table_not_sentinel (w : World) (df : DataFrame) (a b : string) :
  DataFrame_to_string w df +:+ metadata a b <> "No data available".
Proof.
  intros H. apply (f_equal String.length) in H.
  rewrite length_append in H. cbn [String.length] in H.
  pose proof (metadata_length a b). lia.
Qed.

Section formatter_edges.
Context (w : World).

(** X1: the formatter returns the sentence "No data available" exactly when
    it is given no table or an empty one, whatever [max_rows] is. *)
Theorem format_limited_output_no_data_iff (df : option DataFrame) (max_rows : option Z) :
  format_limited_output w df max_rows = Ok "No data available"
  <-> df = None \/ exists d, df = Some d /\ DataFrame_empty d = true.
Proof.
  split.
  - destruct df as [d|]; [|now left]. intros H. right. exists d. split; [reflexivity|].
    unfold format_limited_output in H.
    destruct (DataFrame_empty d); [reflexivity|]. exfalso.
    destruct max_rows as [n|]; [destruct (truthy (Some n) && _)|];
      cbn zeta in H;
      repeat match type of H with
             | context [count_str ?x] =>
                 destruct (count_str x); cbn [mbind result_bind] in H; [|discriminate]
             end;
      injection H as H; now apply formatted_table_not_sentinel in H.
  - intros [->|(d & -> & He)]; [reflexivity|].
    unfold format_limited_output. now rewrite He.
Qed.

(** X2: a [max_rows] that is at least the number of records caps nothing:
    the output is the one for [max_rows] unset. *)
Theorem format_limited_output_no_cap (df : DataFrame) (max_rows : Z) :
  Z.of_nat (DataFrame_len df) <= max_rows ->
  format_limited_output w (Some df) (Some max_rows)
  = format_limited_output w (Some df) None.
Proof.
  intros Hge. unfold format_limited_output.
  destruct (DataFrame_empty df); [reflexivity|].
  assert ((max_rows <? Z.of_nat (DataFrame_len df)) = false) as ->
    by (apply Z.ltb_ge; lia).
  now rewrite andb_false_r.
Qed.

(** X3: a negative [max_rows] on a non-empty table of T records renders all
    records but the last [-max_rows] (none when that exceeds T), and the
    summary reports the negative number as the count shown; when the
    negative number has more than 4300 digits, rendering it raises
    [ValueError] and no text is returned. *)
Theorem format_limited_output_negative (df : DataFrame) (max_rows : Z) :
  DataFrame_empty df = false ->
  max_rows < 0 ->
  format_limited_output w (Some df) (Some max_rows)
  = if - 10 ^ 4300 <? max_rows
    then
      Ok (DataFrame_to_string w
            {| columns := columns df;
               index := take (List.length (index df) - Z.to_nat (- max_rows)) (index df);
               data := take (DataFrame_len df - Z.to_nat (- max_rows)) (data df) |}
          +:+ String LF (String LF
                ("Data summary: Total " +:+ pretty (Z.of_nat (DataFrame_len df))
                 +:+ " records, showing " +:+ pretty max_rows +:+ " records.")))
    else
      Raise (Exn ValueError
        "Exceeds the limit (4300 digits) for integer string conversion; use sys.set_int_max_str_digits() to increase the limit").
Proof.
  intros He Hneg. unfold format_limited_output. rewrite He.
  assert (truthy (Some max_rows) = true) as ->.
  { unfold truthy. apply negb_true_iff, Z.eqb_neq. lia. }
  assert ((max_rows <? Z.of_nat (DataFrame_len df)) = true) as ->
    by (apply Z.ltb_lt; lia).
  cbn [andb]. cbn zeta. rewrite count_str_len. cbn [mbind result_bind].
  unfold count_str.
  assert ((0 <=? max_rows) = false) as Hnn by (apply Z.leb_gt; lia).
  rewrite Hnn.
  unfold DataFrame_head, slice_to. rewrite Hnn.
  rewrite (int_str_negative max_rows Hneg).
  now destruct (- 10 ^ 4300 <? max_rows).
Qed.

End formatter_edges.

Lemma format_limited_output_no_cap_witness :
  format_limited_output (Samples.serving EmptyString) (Some (Samples.studies 2)) (Some 7)
  = Ok (Samples.plain_to_string (Samples.studies 2)
        +:+ String LF (String LF "Data summary: Total 2 records, showing 2 records.")).
Proof.
  exact (format_limited_output_no_cap (Samples.serving EmptyString) (Samples.studies 2) 7
           (proj1 (Z.leb_le 2 7) eq_refl)).
Defined.

(** Three records formatted with [max_rows = -1]. *)
Lemma format_limited_output_negative_witness :
  format_limited_output (Samples.serving EmptyString) (Some (Samples.studies 3)) (Some (-1))
  = Ok (Samples.plain_to_string (Samples.studies 2)
        +:+ String LF (String LF "Data summary: Total 3 records, showing -1 records.")).
Proof.
  exact (format_limited_output_negative (Samples.serving EmptyString) (Samples.studies 3) (-1)
           eq_refl (proj1 (Z.ltb_lt (-1) 0) eq_refl)).
Defined.

(** ** The request helper *)

Lemma raise_for_status_Ok (r : Response) :
  (exists u, raise_for_status r = Ok u) <-> ~ (400 <= status_code r < 600).
Proof.
  unfold raise_for_status.
  destruct ((400 <=? status_code r) && (status_code r <? 500)) eqn:E4;
    [|destruct ((500 <=? status_code r) && (status_code r <? 600)) eqn:E5].
  - apply andb_true_iff in E4 as [H1 H2]. apply Z.leb_le in H1. apply Z.ltb_lt in H2.
    split; [intros [u [=]]|intros H; exfalso; apply H; lia].
  - apply andb_true_iff in E5 as [H1 H2]. apply Z.leb_le in H1. apply Z.ltb_lt in H2.
    split; [intros [u [=]]|intros H; exfalso; apply H; lia].
  - split; [intros _|intros _; now exists ()].
    apply andb_false_iff in E4, E5. rewrite !Z.leb_gt, !Z.ltb_ge in *. lia.
Qed.

Lemma request_ct_error_status (w : World) (url : string) (st : Store) (r : Response) :
  requests_get w url = Responds r ->
  400 <= status_code r < 600 ->
  request_ct w url st
  = (Raise (Exn HTTPError
              ("HTTP Error " +:+ pretty (status_code r) +:+ " for " +:+ url
               +:+ ": " +:+ reason r)),
     sent url st).
Proof.
  intros Hget Hcode. unfold request_ct, record_request. unfold_M. rewrite Hget.
  destruct (raise_for_status r) as [u|e] eqn:E; [|reflexivity].
  exfalso. apply (proj1 (raise_for_status_Ok r)); [now exists u|exact Hcode].
Qed.

Lemma request_ct_connection_failure (w : World) (url : string) (st : Store) (ex : exn) :
  requests_get w url = Fails ex ->
  exc_type ex = ConnectionError \/ exc_type ex = ConnectTimeout ->
  request_ct w url st
  = (Raise (Exn ConnectionError
              ("Couldn't connect to " +:+ url
               +:+ ". Check your internet connection or try again later.")),
     sent url st).
Proof.
  intros Hget Hclass. unfold request_ct, record_request. unfold_M. rewrite Hget.
  unfold isinstance. destruct Hclass as [-> | ->]; reflexivity.
Qed.

Section request.
Context (w : World).

(** X4: [request_ct] hands back a response only when [requests.get] returned
    it with a status outside 400..599; it has then sent exactly the one
    request. *)
Theorem request_ct_returns_only_success
    (url : string) (st st' : Store) (r : Response) :
  request_ct w url st = (Ok r, st') ->
  requests_get w url = Responds r
  /\ ~ (400 <= status_code r < 600)
  /\ st' = sent url st.
Proof.
  intros Hrun.
  pose proof (request_ct_store w url st) as Hst. rewrite Hrun in Hst. cbn [snd] in Hst.
  unfold request_ct, record_request in Hrun. unfold_M.
  destruct (requests_get w url) as [r0|ex] eqn:Hget.
  - destruct (raise_for_status r0) as [u|e] eqn:E; [|discriminate].
    injection Hrun as <- _.
    split; [reflexivity|]. split; [|exact Hst].
    apply raise_for_status_Ok. now exists u.
  - exfalso.
    destruct (isinstance ex HTTPError); [discriminate|].
    destruct (isinstance ex ConnectionError); [discriminate|].
    destruct (isinstance ex Timeout); discriminate.
Qed.

(** X5: when the server answers with a status from 400 to 599, [request_ct]
    raises an [HTTPError] whose text gives the status code, the requested URL
    and the reason phrase. *)
Theorem request_ct_http_error (url : string) (st : Store) (r : Response) :
  requests_get w url = Responds r ->
  400 <= status_code r < 600 ->
  request_ct w url st
  = (Raise (Exn HTTPError
              ("HTTP Error " +:+ pretty (status_code r) +:+ " for " +:+ url
               +:+ ": " +:+ reason r)),
     sent url st).
Proof. apply request_ct_error_status. Qed.

(** X6: when [requests.get] raises an exception that is no [HTTPError],
    [request_ct] raises one whose text names the URL: the connection message
    for a [ConnectionError], a connect timeout included; the timeout message
    for any other [Timeout]; and otherwise a plain [Exception] whose text
    ends with the text of the original one. *)
Theorem request_ct_failure_text (url : string) (st : Store) (ex : exn) :
  requests_get w url = Fails ex ->
  isinstance ex HTTPError = false ->
  exists e,
    request_ct w url st = (Raise e, sent url st)
    /\ contains url (exc_str e)
    /\ (isinstance ex ConnectionError = true ->
        e = Exn ConnectionError
              ("Couldn't connect to " +:+ url
               +:+ ". Check your internet connection or try again later."))
    /\ (isinstance ex ConnectionError = false -> isinstance ex Timeout = true ->
        e = Exn Timeout ("Request to " +:+ url +:+ " timed out."))
    /\ (isinstance ex ConnectionError = false -> isinstance ex Timeout = false ->
        e = Exn Exception
              ("An unexpected error occurred during request to " +:+ url +:+ ": "
               +:+ exc_str ex)).
Proof.
  intros Hget Hhttp. unfold request_ct, record_request. unfold_M.
  rewrite Hget, Hhttp.
  destruct (isinstance ex ConnectionError) eqn:Hc;
    [|destruct (isinstance ex Timeout) eqn:Ht];
    eexists; (split; [reflexivity|]); cbn [exc_str];
    (split; [apply contains_middle|]);
    repeat split; intros; congruence.
Qed.

End request.

Lemma request_ct_returns_only_success_witness :
  requests_get (Cases.answering 304 "Not Modified" EmptyString) "u"
  = Responds {| status_code := 304; reason := "Not Modified"; resp_url := "u";
                content := EmptyString |}
  /\ ~ (400 <= 304 < 600)
  /\ sent "u" initial_store = sent "u" initial_store.
Proof.
  exact (request_ct_returns_only_success (Cases.answering 304 "Not Modified" EmptyString)
           "u" initial_store (sent "u" initial_store)
           {| status_code := 304; reason := "Not Modified"; resp_url := "u";
              content := EmptyString |} eq_refl).
Defined.

Lemma request_ct_http_error_witness :
  request_ct (Cases.answering 404 "Not Found" EmptyString) "u" initial_store
  = (Raise (Exn HTTPError "HTTP Error 404 for u: Not Found"), sent "u" initial_store).
Proof.
  exact (request_ct_http_error (Cases.answering 404 "Not Found" EmptyString)
           "u" initial_store
           {| status_code := 404; reason := "Not Found"; resp_url := "u";
              content := EmptyString |}
           eq_refl (conj (proj1 (Z.leb_le 400 404) eq_refl) (proj1 (Z.ltb_lt 404 600) eq_refl))).
Defined.

(** A connect timeout is reported as a connection failure. *)
Lemma request_ct_failure_text_witness :
  exists e,
    request_ct (Cases.failing (Exn ConnectTimeout "timed out")) "u" initial_store
    = (Raise e, sent "u" initial_store)
    /\ e = Exn ConnectionError
             "Couldn't connect to u. Check your internet connection or try again later.".
Proof.
  destruct (request_ct_failure_text (Cases.failing (Exn ConnectTimeout "timed out"))
              "u" initial_store (Exn ConnectTimeout "timed out") eq_refl eq_refl)
    as (e & Hrun & _ & Hconn & _).
  exists e. split; [exact Hrun|]. exact (Hconn eq_refl).
Defined.

Lemma no_newline_rev_app (a b : string) :
  no_newline (String.rev_app a b) = no_newline a && no_newline b.
Proof.
  revert b. induction a as [|c a IH]; intros b; [reflexivity|].
  cbn [String.rev_app no_newline]. rewrite IH. cbn [no_newline].
  destruct (negb (csv.is_newline c)), (no_newline a), (no_newline b); reflexivity.
Qed.

Lemma no_newline_rev (a : string) : no_newline (String.rev a) = no_newline a.
Proof. unfold String.rev. rewrite no_newline_rev_app. cbn. now rewrite andb_true_r. Qed.

Lemma splitlines_go_clean (n : nat) :
  forall s cur,
    (String.length s <= n)%nat ->
    no_newline cur = true ->
    Forall (fun l => no_newline l = true) (splitlines_go cur s).
Proof.
  induction n as [|n IH]; intros s cur Hlen Hcur.
  - destruct s; [|cbn in Hlen; lia].
    cbn. destruct cur; [constructor|].
    repeat constructor. now rewrite no_newline_rev.
  - assert (Hrev : no_newline (String.rev cur) = true) by now rewrite no_newline_rev.
    assert (Hstep : forall rest, (String.length rest <= n)%nat ->
              Forall (fun l => no_newline l = true)
                (String.rev cur :: splitlines_go EmptyString rest)).
    { intros rest Hr. constructor; [exact Hrev|]. now apply IH. }
    destruct s as [|c s1].
    { cbn. destruct cur; [constructor|]. now repeat constructor. }
    cbn [String.length] in Hlen.
    destruct c as [[] [] [] [] [] [] [] []];
      cbn [splitlines_go is_line_break N_of_ascii N_of_digits N.add N.mul N.eqb
           Pos.eqb orb Pos.add Pos.mul Pos.succ];
      try (apply Hstep; lia);
      try (apply IH; [lia|cbn; exact Hcur]).
    all: destruct s1 as [|c2 s2];
      [cbn [is_line_break N_of_ascii N_of_digits N.add N.mul N.eqb
            Pos.eqb orb Pos.add Pos.mul Pos.succ];
       first [apply Hstep; cbn; lia | apply IH; [cbn; lia|cbn; exact Hcur]]|].
    all: cbn [String.length] in Hlen.
    all: destruct c2 as [[] [] [] [] [] [] [] []];
      cbn [is_line_break N_of_ascii N_of_digits N.add N.mul N.eqb
           Pos.eqb orb Pos.add Pos.mul Pos.succ];
      try (apply Hstep; cbn [String.length]; lia);
      try (apply IH; [cbn [String.length]; lia|cbn; exact Hcur]).
    destruct s2 as [|c3 s3];
      [cbn [is_line_break N_of_ascii N_of_digits N.add N.mul N.eqb
            Pos.eqb orb Pos.add Pos.mul Pos.succ];
       apply IH; [cbn [String.length]; lia|cbn; exact Hcur]|].
    cbn [String.length] in Hlen.
    destruct c3 as [[] [] [] [] [] [] [] []];
      cbn [is_line_break N_of_ascii N_of_digits N.add N.mul N.eqb
           Pos.eqb orb Pos.add Pos.mul Pos.succ];
      try (apply Hstep; cbn [String.length]; lia);
      try (apply IH; [cbn [String.length]; lia|cbn; exact Hcur]).
Qed.

Lemma splitlines_clean (s : string) :
  Forall (fun l => no_newline l = true) (splitlines s).
Proof. now apply (splitlines_go_clean (String.length s)). Qed.

(** ** The CSV handler *)

Lemma reader_clean_reset : reader_clean csv.parse_reset.
Proof. repeat split; [constructor|discriminate]. Qed.

Lemma reader_clean_set_state (s : csv.ParserState) (r : csv.ReaderObj) :
  s <> csv.EAT_CRNL ->
  no_newline (csv.field r) = true ->
  Forall (fun f => no_newline f = true) (csv.fields r) ->
  reader_clean (csv.set_state s r).
Proof. intros Hs Hf Hfs. repeat split; assumption. Qed.

Lemma save_field_clean (r : csv.ReaderObj) :
  no_newline (csv.field r) = true ->
  Forall (fun f => no_newline f = true) (csv.fields r) ->
  no_newline (csv.field (csv.parse_save_field r)) = true
  /\ Forall (fun f => no_newline f = true) (csv.fields (csv.parse_save_field r)).
Proof.
  intros Hf Hfs. split; [reflexivity|].
  cbn. constructor; [now rewrite no_newline_rev|exact Hfs].
Qed.

Lemma add_char_clean (r : csv.ReaderObj) (ch : ascii) :
  csv.is_newline ch = false ->
  no_newline (csv.field r) = true ->
  Forall (fun f => no_newline f = true) (csv.fields r) ->
  match csv.parse_add_char r ch with
  | Ok r' =>
      no_newline (csv.field r') = true
      /\ Forall (fun f => no_newline f = true) (csv.fields r')
      /\ csv.state r' = csv.state r
  | Raise e => e = field_limit_error
  end.
Proof.
  intros Hch Hf Hfs. unfold csv.parse_add_char.
  destruct (csv.is_continuation ch); [|destruct (csv.field_limit <=? csv.field_len r)%N];
    cbn [csv.field csv.fields csv.state no_newline];
    rewrite ?Hch, ?Hf; cbn [negb andb]; auto.
Qed.

(** One step of the machine on a character that is no line end, or on the
    end of a line. *)
Lemma process_char_clean (r : csv.ReaderObj) (c : option ascii) :
  reader_clean r ->
  (forall ch, c = Some ch -> csv.is_newline ch = false) ->
  match csv.parse_process_char r c with
  | Ok r' => reader_clean r'
  | Raise e => e = field_limit_error
  end.
Proof.
  intros (Hf & Hfs & Hst) Hc.
  destruct (save_field_clean r Hf Hfs) as [Hsf Hsfs].
  unfold csv.parse_process_char, csv.start_field.
  destruct (csv.state r) eqn:Es; [| | | | |congruence];
    (destruct c as [ch|];
     [rewrite ?(Hc ch eq_refl);
      pose proof (add_char_clean r ch (Hc ch eq_refl) Hf Hfs) as Hadd
     |]);
    repeat match goal with
           | |- context [if ?b then _ else _] => destruct b
           end;
    cbn [mbind result_bind];
    try (apply reader_clean_set_state; [discriminate|assumption..]);
    try (repeat split; [assumption..|congruence]).
  all: try (split; [exact Hsf|split; [exact Hsfs|cbn; rewrite Es; discriminate]]).
  all: match goal with
       | |- context [csv.parse_add_char ?r' ?c'] =>
           pose proof (add_char_clean r' c' (Hc c' eq_refl) Hf Hfs) as Hadd';
           destruct (csv.parse_add_char r' c') as [r1|e]; cbn [mbind result_bind];
           [destruct Hadd' as (H1 & H2 & H3)|exact Hadd']
       end.
  all: try (apply reader_clean_set_state; [discriminate|assumption..]).
  all: split; [exact H1|split; [exact H2|rewrite H3, Es; discriminate]].
Qed.

Lemma feed_line_clean (line : string) :
  forall r,
    reader_clean r ->
    no_newline line = true ->
    match csv.feed_line r line with
    | Ok r' => reader_clean r'
    | Raise e => e = field_limit_error
    end.
Proof.
  induction line as [|c line IH]; intros r Hr Hline; [exact Hr|].
  cbn [no_newline] in Hline. apply andb_true_iff in Hline as [Hc Hline].
  apply negb_true_iff in Hc.
  cbn [csv.feed_line].
  pose proof (process_char_clean r (Some c) Hr) as Hstep.
  destruct (csv.parse_process_char r (Some c)) as [r'|e]; cbn [mbind result_bind].
  - apply IH; [|exact Hline]. apply Hstep. now intros ch [= <-].
  - apply Hstep. now intros ch [= <-].
Qed.

Lemma row_of_clean (r : csv.ReaderObj) :
  Forall (fun f => no_newline f = true) (csv.fields r) ->
  Forall (fun f => no_newline f = true) (csv.row_of r).
Proof. intros H. unfold csv.row_of. now apply Forall_rev. Qed.

Lemma read_rows_clean (lines : list string) :
  forall r,
    reader_clean r ->
    Forall (fun l => no_newline l = true) lines ->
    match csv.read_rows r lines with
    | Ok rows => Forall (Forall (fun f => no_newline f = true)) rows
    | Raise e => e = field_limit_error
    end.
Proof.
  induction lines as [|line lines IH]; intros r Hr Hlines.
  - cbn [csv.read_rows]. destruct Hr as (Hf & Hfs & _).
    destruct (_ || _); [|constructor].
    repeat constructor. apply row_of_clean. now apply save_field_clean.
  - apply Forall_cons in Hlines as [Hline Hlines].
    cbn [csv.read_rows].
    pose proof (feed_line_clean line r Hr Hline) as H1.
    destruct (csv.feed_line r line) as [r1|e]; cbn [mbind result_bind]; [|exact H1].
    pose proof (process_char_clean r1 None H1) as H2.
    destruct (csv.parse_process_char r1 None) as [r2|e]; cbn [mbind result_bind];
      [|apply H2; intros ch [=]].
    assert (reader_clean r2) as Hr2 by (apply H2; intros ch [=]).
    destruct (csv.is_START_RECORD (csv.state r2)); [|now apply IH].
    pose proof (IH csv.parse_reset reader_clean_reset Hlines) as H3.
    destruct (csv.read_rows csv.parse_reset lines) as [rows|e];
      cbn [mbind result_bind]; [|exact H3].
    constructor; [|exact H3]. apply row_of_clean. apply Hr2.
Qed.

(** Every record takes at least one line. *)
Lemma read_rows_length (lines : list string) :
  forall r rows,
    csv.read_rows r lines = Ok rows ->
    (List.length rows <= List.length lines + 1)%nat
    /\ (r = csv.parse_reset -> List.length rows <= List.length lines)%nat.
Proof.
  induction lines as [|line lines IH]; intros r rows Hrun.
  - cbn [csv.read_rows] in Hrun. split.
    + destruct (_ || _); injection Hrun as <-; cbn; lia.
    + intros ->. cbn in Hrun. injection Hrun as <-. cbn. lia.
  - cbn [csv.read_rows] in Hrun.
    destruct (csv.feed_line r line) as [r1|e]; cbn [mbind result_bind] in Hrun;
      [|discriminate].
    destruct (csv.parse_process_char r1 None) as [r2|e]; cbn [mbind result_bind] in Hrun;
      [|discriminate].
    assert (List.length rows <= List.length lines + 1)%nat as Hle.
    { destruct (csv.is_START_RECORD (csv.state r2)).
      - destruct (csv.read_rows csv.parse_reset lines) as [rest|e] eqn:E;
          cbn [mbind result_bind] in Hrun; [|discriminate].
        injection Hrun as <-. destruct (IH _ _ E) as [_ H]. cbn [List.length].
        specialize (H eq_refl). lia.
      - now destruct (IH _ _ Hrun) as [H _]. }
    cbn [List.length]. split; [lia|intros _; lia].
Qed.

Lemma csv_handler_Ok (w : World) (url : string) (st st' : Store) (rows : list (list string)) :
  csv_handler w url st = (Ok rows, st') ->
  exists r,
    request_ct w url st = (Ok r, st')
    /\ utf8_error w (content r) = None
    /\ csv.reader (splitlines (content r)) = Ok rows.
Proof.
  unfold csv_handler, decode_utf8. unfold_M. intros H.
  destruct (request_ct w url st) as [[r|e] st1]; [|discriminate].
  exists r. destruct (utf8_error w (content r)); [discriminate|].
  destruct (csv.reader _) as [rows'|e]; [|discriminate].
  now injection H as <- <-.
Qed.

Lemma request_ct_raises (w : World) (url : string) (st st' : Store) (e : exn) :
  request_ct w url st = (Raise e, st') -> exc_type e <> CsvError.
Proof.
  unfold request_ct, record_request. unfold_M. intros H.
  destruct (requests_get w url) as [r|ex].
  - destruct (raise_for_status r); [discriminate|]. now injection H as <- _.
  - destruct (isinstance ex HTTPError); [now injection H as <- _|].
    destruct (isinstance ex ConnectionError); [now injection H as <- _|].
    destruct (isinstance ex Timeout); now injection H as <- _.
Qed.

Lemma csv_handler_request_raises (w : World) (url : string) (st st' : Store) (e : exn) :
  request_ct w url st = (Raise e, st') -> csv_handler w url st = (Raise e, st').
Proof. intros H. unfold csv_handler. unfold_M. now rewrite H. Qed.

Section handler.
Context (w : World).

(** X7: no field that [csv_handler] returns holds a line feed or a carriage
    return: the body is cut into lines before it is parsed, so a quoted
    field that spans lines comes back with the line ends removed. *)
Theorem csv_handler_fields_single_line
    (url : string) (st st' : Store) (rows : list (list string)) :
  csv_handler w url st = (Ok rows, st') ->
  Forall (Forall (fun f => no_newline f = true)) rows.
Proof.
  intros H. apply csv_handler_Ok in H as (r & _ & _ & Hread).
  pose proof (read_rows_clean (splitlines (content r)) csv.parse_reset
                reader_clean_reset (splitlines_clean _)) as Hclean.
  unfold csv.reader in Hread. now rewrite Hread in Hclean.
Qed.

(** X8: the only error of the [csv] module that [csv_handler] can raise is
    the one for a field over the size limit; the reader's complaint about a
    new-line character inside a field cannot occur. *)
Theorem csv_handler_csv_error_is_field_limit
    (url : string) (st st' : Store) (e : exn) :
  csv_handler w url st = (Raise e, st') ->
  exc_type e = CsvError ->
  exc_str e = "field larger than field limit (131072)".
Proof.
  unfold csv_handler, decode_utf8. unfold_M. intros H Hclass.
  destruct (request_ct w url st) as [[r|e0] st1] eqn:Hreq.
  - destruct (utf8_error w (content r)) as [msg|].
    + injection H as <- _. discriminate.
    + pose proof (read_rows_clean (splitlines (content r)) csv.parse_reset
                    reader_clean_reset (splitlines_clean _)) as Hclean.
      unfold csv.reader in H.
      destruct (csv.read_rows _ _) as [rows|e1]; [discriminate|].
      injection H as <- _. now rewrite Hclean.
  - injection H as <- _. now apply request_ct_raises in Hreq.
Qed.

(** X9: [csv_handler] returns at most as many records as the body of the
    response has lines. *)
Theorem csv_handler_row_count
    (url : string) (st st' : Store) (rows : list (list string)) :
  csv_handler w url st = (Ok rows, st') ->
  exists r,
    requests_get w url = Responds r
    /\ (List.length rows <= List.length (splitlines (content r)))%nat.
Proof.
  intros H. apply csv_handler_Ok in H as (r & Hreq & _ & Hread).
  exists r. split.
  - unfold request_ct, record_request in Hreq. unfold_M.
    destruct (requests_get w url) as [r0|ex].
    + destruct (raise_for_status r0); [|discriminate]. now injection Hreq as <- _.
    + destruct (isinstance ex HTTPError); [discriminate|].
      destruct (isinstance ex ConnectionError); [discriminate|].
      destruct (isinstance ex Timeout); discriminate.
  - unfold csv.reader in Hread.
    now destruct (read_rows_length _ _ _ Hread) as [_ Hle]; apply Hle.
Qed.

(** X10: [json_handler] sends the one request; when the server answers with
    a status from 400 to 599 it raises the HTTP error without parsing the
    body, and otherwise its result is the parser's result on the response. *)
Theorem json_handler_result {J : Type} (json : Response -> result J)
    (url : string) (st : Store) (r : Response) :
  requests_get w url = Responds r ->
  json_handler w json url st
  = (if (400 <=? status_code r) && (status_code r <? 600)
     then Raise (Exn HTTPError
                   ("HTTP Error " +:+ pretty (status_code r) +:+ " for " +:+ url
                    +:+ ": " +:+ reason r))
     else json r,
     sent url st).
Proof.
  intros Hget. unfold json_handler. unfold_M.
  destruct ((400 <=? status_code r) && (status_code r <? 600)) eqn:E.
  - apply andb_true_iff in E as [H1 H2]. apply Z.leb_le in H1. apply Z.ltb_lt in H2.
    now rewrite (request_ct_error_status w url st r Hget) by lia.
  - assert (request_ct w url st = (Ok r, sent url st)) as ->; [|reflexivity].
    unfold request_ct, record_request. unfold_M. rewrite Hget.
    destruct (raise_for_status r) as [u|e] eqn:Er; [reflexivity|]. exfalso.
    assert (~ (400 <= status_code r < 600)) as Hok.
    { apply andb_false_iff in E. rewrite Z.leb_gt, Z.ltb_ge in E. lia. }
    apply raise_for_status_Ok in Hok as [u Hu]. congruence.
Qed.

End handler.

Lemma csv_handler_csv_error_is_field_limit_witness :
  exc_str field_limit_error = "field larger than field limit (131072)".
Proof.
  apply (csv_handler_csv_error_is_field_limit (Samples.serving Cases.body_oversized_field)
           "u" initial_store (sent "u" initial_store) field_limit_error).
  - vm_compute. reflexivity.
  - reflexivity.
Defined.

(** A quoted field over two lines comes back as one line. *)
Lemma csv_handler_fields_single_line_witness :
  (csv_handler (Samples.serving Cases.body_quoted_two_lines) "u" initial_store).1
  = Ok [["NCT Number"; "Brief Summary"]; ["NCT00000001"; "first linesecond line"]]
  /\ Forall (Forall (fun f => no_newline f = true))
       [["NCT Number"; "Brief Summary"]; ["NCT00000001"; "first linesecond line"]].
Proof.
  split; [vm_compute; reflexivity|].
  exact (csv_handler_fields_single_line (Samples.serving Cases.body_quoted_two_lines)
           "u" initial_store (sent "u" initial_store)
           [["NCT Number"; "Brief Summary"]; ["NCT00000001"; "first linesecond line"]]
           eq_refl).
Defined.

Lemma csv_handler_row_count_witness :
  exists r,
    requests_get (Samples.serving Samples.body_two_studies) "u" = Responds r
    /\ (3 <= List.length (splitlines (content r)))%nat.
Proof.
  exact (csv_handler_row_count (Samples.serving Samples.body_two_studies)
           "u" initial_store (sent "u" initial_store)
           [["NCT Number"; "Study Title"];
            ["NCT00000001"; "First trial"];
            ["NCT00000002"; "Second trial"]] eq_refl).
Defined.

Lemma json_handler_result_witness :
  json_handler (Cases.answering 503 "Service Unavailable" "{}")
    (fun r => Ok (content r)) "u" initial_store
  = (Raise (Exn HTTPError "HTTP Error 503 for u: Service Unavailable"),
     sent "u" initial_store).
Proof.
  exact (json_handler_result (Cases.answering 503 "Service Unavailable" "{}")
           (fun r => Ok (content r)) "u" initial_store
           {| status_code := 503; reason := "Service Unavailable"; resp_url := "u";
              content := "{}" |} eq_refl).
Defined.

(** ** The tools, case by case *)

Lemma from_records_nonempty_header (header : list string) (rows : list (list string)) :
  rows <> [] -> header <> [] -> max_width rows = List.length header ->
  DataFrame_from_records rows header = Ok (records_table header rows)
  /\ DataFrame_empty (records_table header rows) = false.
Proof.
  intros Hrows Hheader Hw. split.
  - unfold DataFrame_from_records, records_table.
    destruct rows as [|r rest]; [congruence|].
    rewrite Hw, Nat.eqb_refl. cbn [negb].
    destruct header as [|h hs]; [congruence|]. reflexivity.
  - unfold DataFrame_empty, records_table. cbn [columns index].
    rewrite length_seqZ, Nat2Z.id.
    destruct header; [congruence|]. destruct rows; [congruence|]. reflexivity.
Qed.

Lemma from_records_no_columns (rows : list (list string)) :
  rows <> [] -> max_width rows = 0%nat ->
  exists df, DataFrame_from_records rows [] = Ok df /\ DataFrame_empty df = true.
Proof.
  intros Hrows Hw. unfold DataFrame_from_records.
  destruct rows as [|r rest]; [congruence|].
  rewrite Hw. cbn. eexists. split; reflexivity.
Qed.

Lemma keyword_try_valid (w : World) (keyword : string) (max_studies : Z) (st : Store) :
  reachable w st ->
  1 <= max_studies <= 1000 ->
  search_clinical_trials_by_keyword_try w keyword max_studies st
  = keyword_fetch_and_format w keyword max_studies st.
Proof.
  intros Hreach Hrange.
  unfold search_clinical_trials_by_keyword_try. unfold_M.
  assert ((1000 <? max_studies) || (max_studies <? 1) = false) as ->.
  { apply orb_false_iff. split; apply Z.ltb_ge; lia. }
  now rewrite (reachable_issubset w st Hreach).
Qed.

Section cases.
Context (w : World).

(** X11: a lookup by identifier sends exactly one request, whatever the
    identifier and whatever the outcome, to the study search with a page
    size of 1; the list of valid column names is left as it was. *)
Theorem NCT_sends_one_request (nct_ID : string) (st : Store) :
  (search_clinical_trials_by_NCT w nct_ID st).2
  = {| _valid_csv_column_names := _valid_csv_column_names st;
       requests_sent :=
         requests_sent st
         ++ ["https://clinicaltrials.gov/api/v2/studies?format=csv&markupFormat=markdown&query.term="
             +:+ nct_ID +:+ "&pageSize=1"] |}.
Proof. rewrite NCT_store. reflexivity. Qed.

(** X12: when the decode gives no record or the header alone, the lookup
    by identifier returns the sentence that the study was not found in the
    API response structure. *)
Theorem NCT_no_data_rows
    (nct_ID : string) (st st' : Store) (records : list (list string)) :
  csv_handler w (NCT_url nct_ID) st = (Ok records, st') ->
  (List.length records <= 1)%nat ->
  search_clinical_trials_by_NCT w nct_ID st
  = (Ok ("Study with NCT ID " +:+ nct_ID +:+ " not found in API response structure."),
     st').
Proof.
  intros Hdec Hlen. apply try_except_Ok.
  unfold search_clinical_trials_by_NCT_try. unfold_M. rewrite Hdec.
  destruct records as [|header [|r rest]]; [reflexivity..|].
  cbn [List.length] in Hlen. lia.
Qed.

(** X13: when the decode gives no record or the header alone, a keyword
    search with a bound in range returns the sentence that no studies were
    found and that the API returned no data or an unexpected structure. *)
Theorem keyword_no_data_rows
    (keyword : string) (max_studies : Z) (st st' : Store)
    (records : list (list string)) :
  reachable w st ->
  1 <= max_studies <= 1000 ->
  csv_handler w (keyword_url keyword max_studies) st = (Ok records, st') ->
  (List.length records <= 1)%nat ->
  search_clinical_trials_by_keyword w keyword max_studies st
  = (Ok ("No studies found for keyword: " +:+ keyword
         +:+ ". The API returned no data or an unexpected structure."),
     st').
Proof.
  intros Hreach Hrange Hdec Hlen. apply try_except_Ok.
  rewrite keyword_try_valid by assumption.
  unfold keyword_fetch_and_format. unfold_M. rewrite Hdec.
  destruct records as [|header [|r rest]]; [reflexivity..|].
  cbn [List.length] in Hlen. lia.
Qed.

(** X14: a keyword search whose decode gives a non-empty header and data
    rows that fit it returns the rendering of the table of all decoded data
    rows with a summary in which total and shown are both their number; the
    bound [max_studies] caps nothing in the output. *)
Theorem keyword_shows_every_row
    (keyword : string) (max_studies : Z) (st st' : Store)
    (header : list string) (rows : list (list string)) :
  reachable w st ->
  1 <= max_studies <= 1000 ->
  csv_handler w (keyword_url keyword max_studies) st = (Ok (header :: rows), st') ->
  rows <> [] ->
  header <> [] ->
  max_width rows = List.length header ->
  search_clinical_trials_by_keyword w keyword max_studies st
  = (Ok (DataFrame_to_string w (records_table header rows)
         +:+ String LF (String LF
               ("Data summary: Total " +:+ pretty (Z.of_nat (List.length rows))
                +:+ " records, showing " +:+ pretty (Z.of_nat (List.length rows))
                +:+ " records."))),
     st').
Proof.
  intros Hreach Hrange Hdec Hrows Hheader Hw. apply try_except_Ok.
  rewrite keyword_try_valid by assumption.
  unfold keyword_fetch_and_format. unfold_M. rewrite Hdec.
  destruct (from_records_nonempty_header header rows Hrows Hheader Hw) as [Hdf Hne].
  destruct rows as [|r rest] eqn:Erows; [congruence|]. rewrite <- Erows in *.
  rewrite Hdf, Hne.
  rewrite format_limited_output_unset by exact Hne.
  unfold DataFrame_len, records_table. cbn [data].
  now rewrite length_fmap.
Qed.

(** X15: when the decoded header is empty and every data row is empty (a
    body of blank lines), the table has no column and a keyword search with
    a bound in range returns the sentence that no studies were found. *)
Theorem keyword_blank_records
    (keyword : string) (max_studies : Z) (st st' : Store) (rows : list (list string)) :
  reachable w st ->
  1 <= max_studies <= 1000 ->
  csv_handler w (keyword_url keyword max_studies) st = (Ok ([] :: rows), st') ->
  rows <> [] ->
  Forall (fun row => row = []) rows ->
  search_clinical_trials_by_keyword w keyword max_studies st
  = (Ok ("No studies found for keyword: " +:+ keyword +:+ "."), st').
Proof.
  intros Hreach Hrange Hdec Hrows Hblank. apply try_except_Ok.
  rewrite keyword_try_valid by assumption.
  unfold keyword_fetch_and_format. unfold_M. rewrite Hdec.
  assert (max_width rows = 0%nat) as Hw.
  { clear -Hblank. induction Hblank as [|row rows' -> _ IH]; [reflexivity|].
    unfold max_width in *. cbn [foldr List.length]. now rewrite IH. }
  destruct (from_records_no_columns rows Hrows Hw) as (df & Hdf & He).
  destruct rows as [|r rest] eqn:Erows; [congruence|]. rewrite <- Erows in *.
  now rewrite Hdf, He.
Qed.

End cases.

(** Even an empty identifier is sent to the server. *)
Lemma NCT_sends_one_request_witness :
  requests_sent (search_clinical_trials_by_NCT Samples.offline EmptyString initial_store).2
  = ["https://clinicaltrials.gov/api/v2/studies?format=csv&markupFormat=markdown&query.term=&pageSize=1"].
Proof.
  exact (f_equal requests_sent
           (NCT_sends_one_request Samples.offline EmptyString initial_store)).
Defined.

Lemma NCT_no_data_rows_witness :
  search_clinical_trials_by_NCT (Samples.serving Cases.body_header_only)
    "NCT00000001" initial_store
  = (Ok "Study with NCT ID NCT00000001 not found in API response structure.",
     sent (NCT_url "NCT00000001") initial_store).
Proof.
  exact (NCT_no_data_rows (Samples.serving Cases.body_header_only) "NCT00000001"
           initial_store (sent (NCT_url "NCT00000001") initial_store)
           [["NCT Number"; "Study Title"]] eq_refl (le_n 1)).
Defined.

Lemma keyword_no_data_rows_witness :
  search_clinical_trials_by_keyword (Samples.serving Cases.body_header_only)
    "cancer" 20 initial_store
  = (Ok "No studies found for keyword: cancer. The API returned no data or an unexpected structure.",
     sent (keyword_url "cancer" 20) initial_store).
Proof.
  exact (keyword_no_data_rows (Samples.serving Cases.body_header_only) "cancer" 20
           initial_store (sent (keyword_url "cancer" 20) initial_store)
           [["NCT Number"; "Study Title"]]
           (reachable_init _)
           (conj (proj1 (Z.leb_le 1 20) eq_refl) (proj1 (Z.leb_le 20 1000) eq_refl))
           eq_refl (le_n 1)).
Defined.

(** Two studies come back although [max_studies] is 1: both are shown. *)
Lemma keyword_shows_every_row_witness :
  search_clinical_trials_by_keyword (Samples.serving Samples.body_two_studies)
    "cancer" 1 initial_store
  = (Ok (Samples.plain_to_string Samples.two_studies_table
         +:+ String LF (String LF "Data summary: Total 2 records, showing 2 records.")),
     sent (keyword_url "cancer" 1) initial_store).
Proof.
  exact (keyword_shows_every_row (Samples.serving Samples.body_two_studies) "cancer" 1
           initial_store (sent (keyword_url "cancer" 1) initial_store)
           ["NCT Number"; "Study Title"]
           [["NCT00000001"; "First trial"]; ["NCT00000002"; "Second trial"]]
           (reachable_init _)
           (conj (proj1 (Z.leb_le 1 1) eq_refl) (proj1 (Z.leb_le 1 1000) eq_refl))
           eq_refl ltac:(discriminate) ltac:(discriminate) eq_refl).
Defined.

Lemma keyword_blank_records_witness :
  search_clinical_trials_by_keyword (Samples.serving Cases.body_blank_lines)
    "cancer" 20 initial_store
  = (Ok "No studies found for keyword: cancer.",
     sent (keyword_url "cancer" 20) initial_store).
Proof.
  exact (keyword_blank_records (Samples.serving Cases.body_blank_lines) "cancer" 20
           initial_store (sent (keyword_url "cancer" 20) initial_store) [[]]
           (reachable_init _)
           (conj (proj1 (Z.leb_le 1 20) eq_refl) (proj1 (Z.leb_le 20 1000) eq_refl))
           eq_refl ltac:(discriminate) ltac:(repeat constructor)).
Defined.

(** ** Failures of the request, as the tools report them *)

Lemma NCT_reports (w : World) (nct_ID : string) (st st' : Store) (e : exn) :
  request_ct w (NCT_url nct_ID) st = (Raise e, st') ->
  search_clinical_trials_by_NCT w nct_ID st = (Ok (NCT_error_msg nct_ID e), st').
Proof.
  intros Hreq. unfold search_clinical_trials_by_NCT.
  erewrite try_except_Raise; [reflexivity|].
  unfold search_clinical_trials_by_NCT_try. unfold_M.
  now rewrite (csv_handler_request_raises w _ st st' e Hreq).
Qed.

Lemma keyword_reports
    (w : World) (keyword : string) (max_studies : Z) (st st' : Store) (e : exn) :
  reachable w st ->
  1 <= max_studies <= 1000 ->
  request_ct w (keyword_url keyword max_studies) st = (Raise e, st') ->
  search_clinical_trials_by_keyword w keyword max_studies st
  = (Ok (keyword_error_msg keyword e), st').
Proof.
  intros Hreach Hrange Hreq. unfold search_clinical_trials_by_keyword.
  erewrite try_except_Raise; [reflexivity|].
  rewrite keyword_try_valid by assumption.
  unfold keyword_fetch_and_format. unfold_M.
  now rewrite (csv_handler_request_raises w _ st st' e Hreq).
Qed.

Section failures.
Context (w : World).

(** X16: when the network refuses every connection (a connection error or
    a connect timeout), both tools return their error sentence with the
    identifier or keyword and the message that the URL could not be
    connected to; the text of the original exception is not part of it. *)
Theorem tools_report_connection_failure
    (nct_ID keyword : string) (max_studies : Z) (st : Store) (ex : exn) :
  (forall url, requests_get w url = Fails ex) ->
  exc_type ex = ConnectionError \/ exc_type ex = ConnectTimeout ->
  reachable w st ->
  1 <= max_studies <= 1000 ->
  search_clinical_trials_by_NCT w nct_ID st
  = (Ok ("Error fetching study details for NCT ID " +:+ nct_ID
         +:+ ": Couldn't connect to " +:+ NCT_url nct_ID
         +:+ ". Check your internet connection or try again later."),
     sent (NCT_url nct_ID) st)
  /\ search_clinical_trials_by_keyword w keyword max_studies st
     = (Ok ("Error searching studies by keyword '" +:+ keyword
            +:+ "': Couldn't connect to " +:+ keyword_url keyword max_studies
            +:+ ". Check your internet connection or try again later."),
        sent (keyword_url keyword max_studies) st).
Proof.
  intros Hdown Hclass Hreach Hrange. split.
  - rewrite (NCT_reports w nct_ID st _ _
               (request_ct_connection_failure w _ st ex (Hdown _) Hclass)).
    reflexivity.
  - rewrite (keyword_reports w keyword max_studies st _ _ Hreach Hrange
               (request_ct_connection_failure w _ st ex (Hdown _) Hclass)).
    reflexivity.
Qed.

(** X17: when the server answers every request with the same status from
    400 to 599, both tools return their error sentence with the identifier
    or keyword followed by the status code, the URL and the reason phrase. *)
Theorem tools_report_http_error
    (nct_ID keyword : string) (max_studies : Z) (st : Store)
    (code : Z) (phrase : string) :
  (forall url, exists r,
      requests_get w url = Responds r /\ status_code r = code /\ reason r = phrase) ->
  400 <= code < 600 ->
  reachable w st ->
  1 <= max_studies <= 1000 ->
  search_clinical_trials_by_NCT w nct_ID st
  = (Ok ("Error fetching study details for NCT ID " +:+ nct_ID
         +:+ ": HTTP Error " +:+ pretty code +:+ " for " +:+ NCT_url nct_ID
         +:+ ": " +:+ phrase),
     sent (NCT_url nct_ID) st)
  /\ search_clinical_trials_by_keyword w keyword max_studies st
     = (Ok ("Error searching studies by keyword '" +:+ keyword
            +:+ "': HTTP Error " +:+ pretty code +:+ " for "
            +:+ keyword_url keyword max_studies +:+ ": " +:+ phrase),
        sent (keyword_url keyword max_studies) st).
Proof.
  intros Hserver Hcode Hreach Hrange. split.
  - destruct (Hserver (NCT_url nct_ID)) as (r & Hget & <- & <-).
    rewrite (NCT_reports w nct_ID st _ _
               (request_ct_error_status w _ st r Hget Hcode)).
    reflexivity.
  - destruct (Hserver (keyword_url keyword max_studies)) as (r & Hget & <- & <-).
    rewrite (keyword_reports w keyword max_studies st _ _ Hreach Hrange
               (request_ct_error_status w _ st r Hget Hcode)).
    reflexivity.
Qed.

End failures.

Lemma tools_report_connection_failure_witness :
  search_clinical_trials_by_keyword Samples.offline "cancer" 20 initial_store
  = (Ok "Error searching studies by keyword 'cancer': Couldn't connect to https://clinicaltrials.gov/api/v2/studies?format=csv&query.term=cancer&markupFormat=markdown&fields=NCT Number|Conditions|Study Title|Brief Summary|Study URL|Study Status|Phases|Start Date|Sponsor|Enrollment|Study Type&pageSize=20. Check your internet connection or try again later.",
     sent (keyword_url "cancer" 20) initial_store).
Proof.
  exact (proj2 (tools_report_connection_failure Samples.offline "NCT00000001" "cancer" 20
                  initial_store (Exn ConnectionError "Connection refused")
                  (fun url => eq_refl) (or_introl eq_refl) (reachable_init _)
                  (conj (proj1 (Z.leb_le 1 20) eq_refl)
                        (proj1 (Z.leb_le 20 1000) eq_refl)))).
Defined.

Lemma tools_report_http_error_witness :
  search_clinical_trials_by_NCT (Cases.answering 404 "Not Found" EmptyString)
    "NCT00000001" initial_store
  = (Ok "Error fetching study details for NCT ID NCT00000001: HTTP Error 404 for https://clinicaltrials.gov/api/v2/studies?format=csv&markupFormat=markdown&query.term=NCT00000001&pageSize=1: Not Found",
     sent (NCT_url "NCT00000001") initial_store).
Proof.
  exact (proj1 (tools_report_http_error (Cases.answering 404 "Not Found" EmptyString)
                  "NCT00000001" "cancer" 20 initial_store 404 "Not Found"
                  (fun url =>
                     ex_intro _
                       {| status_code := 404; reason := "Not Found"; resp_url := url;
                          content := EmptyString |}
                       (conj eq_refl (conj eq_refl eq_refl)))
                  (conj (proj1 (Z.leb_le 400 404) eq_refl) (proj1 (Z.ltb_lt 404 600) eq_refl))
                  (reachable_init _)
                  (conj (proj1 (Z.leb_le 1 20) eq_refl)
                        (proj1 (Z.leb_le 20 1000) eq_refl)))).
Defined.

(** ** What the tools can return *)

Lemma literal_prefix_length (a b : string) :
  (String.length a <= String.length (a +:+ b))%nat.
Proof. rewrite length_append. lia. Qed.

Lemma long_not_sentinel (s : string) :
  (17 < String.length s)%nat -> s <> "No data available" /\ s <> EmptyString.
Proof.
  intros Hlen. split; intros ->; cbn in Hlen; lia.
Qed.

Lemma literal_not_sentinel (a b : string) :
  (17 < String.length a)%nat ->
  a +:+ b <> "No data available" /\ a +:+ b <> EmptyString.
Proof.
  intros Hlen. apply long_not_sentinel.
  pose proof (literal_prefix_length a b). lia.
Qed.

Lemma formatted_not_sentinel (w : World) (df : DataFrame) (a b : string) :
  DataFrame_to_string w df +:+ metadata a b <> "No data available"
  /\ DataFrame_to_string w df +:+ metadata a b <> EmptyString.
Proof.
  apply long_not_sentinel.
  rewrite length_append. pose proof (metadata_length a b). lia.
Qed.

Section invalid_fields.
Context (w : World).

(** X18: if the list of valid column names in the store lacks one of the
    requested fields, a keyword search with a bound in range returns the
    error that lists, in request order, exactly the requested fields that
    are missing, followed by the valid names; the store is unchanged, so no
    request has been sent. *)
Theorem keyword_invalid_fields_rejected
    (keyword : string) (max_studies : Z) (st : Store) :
  1 <= max_studies <= 1000 ->
  issubset requested_csv_fields (_valid_csv_column_names st) = false ->
  search_clinical_trials_by_keyword w keyword max_studies st
  = (Ok ("Error: One or more requested fields are not valid! Invalid fields: "
         +:+ join ", "
               (filter (fun f => f ∉ _valid_csv_column_names st) requested_csv_fields)
         +:+ ". Valid fields are: " +:+ join ", " (_valid_csv_column_names st)),
     st).
Proof.
  intros Hrange Hsub. apply try_except_Ok.
  unfold search_clinical_trials_by_keyword_try. unfold_M.
  assert ((1000 <? max_studies) || (max_studies <? 1) = false) as ->.
  { apply orb_false_iff. split; apply Z.ltb_ge; lia. }
  now rewrite Hsub.
Qed.

End invalid_fields.

Lemma keyword_invalid_fields_rejected_witness :
  search_clinical_trials_by_keyword Samples.offline "cancer" 20 Cases.narrowed_store
  = (Ok "Error: One or more requested fields are not valid! Invalid fields: Conditions, Study Title, Brief Summary, Study URL, Study Status, Phases, Start Date, Sponsor, Enrollment, Study Type. Valid fields are: NCT Number",
     Cases.narrowed_store).
Proof.
  exact (keyword_invalid_fields_rejected Samples.offline "cancer" 20 Cases.narrowed_store
           (conj (proj1 (Z.leb_le 1 20) eq_refl) (proj1 (Z.leb_le 20 1000) eq_refl))
           eq_refl).
Defined.

Section shapes.
Context (w : World).

Lemma NCT_try_shapes (nct_ID : string) (st st' : Store) (s : string) :
  search_clinical_trials_by_NCT_try w nct_ID st = (Ok s, st') ->
  s = "Study with NCT ID " +:+ nct_ID +:+ " not found in API response structure."
  \/ s = "Study with NCT ID " +:+ nct_ID
         +:+ " not found in ClinicalTrials.gov API response."
  \/ exists df,
       DataFrame_empty df = false
       /\ s = DataFrame_to_string w df
              +:+ metadata (pretty (Z.of_nat (DataFrame_len df)))
                    (pretty (Z.of_nat (DataFrame_len df))).
Proof.
  unfold search_clinical_trials_by_NCT_try. unfold_M. intros H.
  destruct (csv_handler w (NCT_url nct_ID) st) as [[records|e] st1]; [|discriminate].
  destruct records as [|header [|r rest]];
    [injection H as <- _; now left..|].
  destruct (DataFrame_from_records (r :: rest) header) as [df|e]; [|discriminate].
  destruct (DataFrame_empty df) eqn:He; [injection H as <- _; right; now left|].
  destruct (DataFrame_getitem df "NCT Number") as [[col|sub]|e]; [| |discriminate].
  - unfold not_any_eq in H.
    destruct (negb _); [injection H as <- _; right; now left|].
    unfold NCT_found_branch in H.
    destruct (iloc0 _) as [row|e]; [|discriminate].
    rewrite (format_limited_output_unset w df He) in H.
    cbn [mbind result_bind results_str] in H. injection H as <- _.
    right. right. now exists df.
  - discriminate.
Qed.

(** X19: whatever the server does, a lookup by identifier returns one of
    four texts: not found in the response structure, not found in the
    response, a rendered table followed by a summary whose total and shown
    counts are both the number of rows of that table, or the error sentence
    with the text of an exception.  It never returns the empty string and
    never the formatter's sentence for no data. *)
Theorem NCT_result_shapes (nct_ID : string) (st : Store) :
  exists s,
    (search_clinical_trials_by_NCT w nct_ID st).1 = Ok s
    /\ (s = "Study with NCT ID " +:+ nct_ID +:+ " not found in API response structure."
        \/ s = "Study with NCT ID " +:+ nct_ID
               +:+ " not found in ClinicalTrials.gov API response."
        \/ (exists df,
              DataFrame_empty df = false
              /\ s = DataFrame_to_string w df
                     +:+ String LF (String LF
                           ("Data summary: Total " +:+ pretty (Z.of_nat (DataFrame_len df))
                            +:+ " records, showing "
                            +:+ pretty (Z.of_nat (DataFrame_len df)) +:+ " records.")))
        \/ exists e,
             s = "Error fetching study details for NCT ID " +:+ nct_ID +:+ ": "
                 +:+ exc_str e)
    /\ s <> "No data available"
    /\ s <> EmptyString.
Proof.
  unfold search_clinical_trials_by_NCT, try_except_Exception.
  destruct (search_clinical_trials_by_NCT_try w nct_ID st) as [[s|e] st'] eqn:Hbody.
  - exists s. split; [reflexivity|].
    destruct (NCT_try_shapes nct_ID st st' s Hbody) as [->|[->|(df & He & ->)]].
    + split; [now left|apply literal_not_sentinel; cbn [String.length]; lia].
    + split; [right; now left|apply literal_not_sentinel; cbn [String.length]; lia].
    + split; [right; right; left; now exists df|apply formatted_not_sentinel].
  - rewrite isinstance_Exception. exists (NCT_error_msg nct_ID e).
    split; [reflexivity|]. split; [right; right; right; now exists e|].
    unfold NCT_error_msg. apply literal_not_sentinel; cbn [String.length]; lia.
Qed.

Lemma keyword_fetch_shapes (keyword : string) (max_studies : Z) (st st' : Store) (s : string) :
  keyword_fetch_and_format w keyword max_studies st = (Ok s, st') ->
  s = "No studies found for keyword: " +:+ keyword
      +:+ ". The API returned no data or an unexpected structure."
  \/ s = "No studies found for keyword: " +:+ keyword +:+ "."
  \/ exists df,
       DataFrame_empty df = false
       /\ s = DataFrame_to_string w df
              +:+ metadata (pretty (Z.of_nat (DataFrame_len df)))
                    (pretty (Z.of_nat (DataFrame_len df))).
Proof.
  unfold keyword_fetch_and_format. unfold_M. intros H.
  destruct (csv_handler w (keyword_url keyword max_studies) st) as [[records|e] st1];
    [|discriminate].
  destruct records as [|header [|r rest]];
    [injection H as <- _; now left..|].
  destruct (DataFrame_from_records (r :: rest) header) as [df|e]; [|discriminate].
  destruct (DataFrame_empty df) eqn:He.
  - injection H as <- _. right. now left.
  - rewrite (format_limited_output_unset w df He) in H. injection H as <- _.
    right. right. now exists df.
Qed.

(** X20: whatever the server does, a keyword search on a store the tools
    can reach returns one of five texts: the error for a bound out of
    range, one of the two sentences that no studies were found, a rendered
    table followed by a summary whose total and shown counts are both the
    number of rows of that table, or the error sentence with the text of an
    exception.  It never returns the empty string and never the formatter's
    sentence for no data. *)
Theorem keyword_result_shapes (keyword : string) (max_studies : Z) (st : Store) :
  reachable w st ->
  exists s,
    (search_clinical_trials_by_keyword w keyword max_studies st).1 = Ok s
    /\ (s = "Error: The number of studies can only be between 1 and 1000. (Requested: "
            +:+ pretty max_studies +:+ ")"
        \/ s = "No studies found for keyword: " +:+ keyword
               +:+ ". The API returned no data or an unexpected structure."
        \/ s = "No studies found for keyword: " +:+ keyword +:+ "."
        \/ (exists df,
              DataFrame_empty df = false
              /\ s = DataFrame_to_string w df
                     +:+ String LF (String LF
                           ("Data summary: Total " +:+ pretty (Z.of_nat (DataFrame_len df))
                            +:+ " records, showing "
                            +:+ pretty (Z.of_nat (DataFrame_len df)) +:+ " records.")))
        \/ exists e,
             s = "Error searching studies by keyword '" +:+ keyword +:+ "': "
                 +:+ exc_str e)
    /\ s <> "No data available"
    /\ s <> EmptyString.
Proof.
  intros Hreach.
  unfold search_clinical_trials_by_keyword, try_except_Exception.
  destruct (search_clinical_trials_by_keyword_try w keyword max_studies st)
    as [[s|e] st'] eqn:Hbody.
  - exists s. split; [reflexivity|].
    unfold search_clinical_trials_by_keyword_try in Hbody. unfold_M.
    destruct ((1000 <? max_studies) || (max_studies <? 1)).
    { unfold bound_error_msg, int_str in Hbody.
      destruct (Z.abs max_studies <? 10 ^ int_max_str_digits); [|discriminate].
      cbn [mbind result_bind] in Hbody. injection Hbody as <- _.
      split; [now left|]. apply literal_not_sentinel; cbn [String.length]; lia. }
    rewrite (reachable_issubset w st Hreach) in Hbody. cbn [negb] in Hbody.
    destruct (keyword_fetch_shapes keyword max_studies st st' s Hbody)
      as [->|[->|(df & He & ->)]].
    + split; [right; now left|apply literal_not_sentinel; cbn [String.length]; lia].
    + split; [right; right; now left|apply literal_not_sentinel; cbn [String.length]; lia].
    + split; [right; right; right; left; now exists df|apply formatted_not_sentinel].
  - rewrite isinstance_Exception. exists (keyword_error_msg keyword e).
    split; [reflexivity|]. split; [right; right; right; right; now exists e|].
    unfold keyword_error_msg. apply literal_not_sentinel; cbn [String.length]; lia.
Qed.

End shapes.

Lemma keyword_result_shapes_witness :
  exists s,
    (search_clinical_trials_by_keyword (Samples.serving Samples.body_two_studies)
       "cancer" 20 initial_store).1 = Ok s
    /\ s <> "No data available"
    /\ s <> EmptyString.
Proof.
  destruct (keyword_result_shapes (Samples.serving Samples.body_two_studies) "cancer" 20
              initial_store (reachable_init _)) as (s & Hrun & _ & Hne).
  exists s. exact (conj Hrun Hne).
Defined.
